(** * Price-provider clients: BirdEye (batch) and DexScreener (per token)

    A shallow embedding of [birdeye.py] and [dexscreener.py].

    - The value returned by [requests.Response.json()] is a tree of Python
      objects ([json]); Python floats are IEEE-754 binary64 values
      ([spec_float] with precision 53 and maximal exponent 1024), Decimals
      are sign, coefficient and exponent.
    - Python exceptions are the constructors of [exn]; a computation that
      may raise has type [result A]. The reads the clients make on untyped
      JSON ([.get], [[...]], [in], [float(...)], [Decimal(...)]) raise what
      Python raises on an object of the wrong shape.
    - The network is a function [upstream] from requests to responses (a
      [Network]): the upstream always answers, and answers the same request
      in the same way during a run. A client method runs in the monad [M],
      which threads the list of requests sent so far, so that "no network
      call was made" is the statement that this list is unchanged.
    - What the two modules import from the rest of the repository
      ([helpers.is_solana_address], [constants], [config]) is a [Config];
      the string parsers behind [float(str)], [int(str)] and [Decimal(str)]
      are a [PyRuntime]. Statements hold for every [Config], [PyRuntime]
      and [Network]; the examples run on the ones of [Fixture] and
      [Market]. *)

From Stdlib Require Import ZArith String Ascii List Lia.
From Stdlib Require Import Floats.SpecFloat.
From stdpp Require Import gmap strings.

Open Scope string_scope.
Open Scope list_scope.
Open Scope Z_scope.

(** ** Python objects *)

(** Python's [float]. *)
Definition float := spec_float.

Definition float_of_Z (z : Z) : float := binary_normalize 53 1024 z 0 false.

(** [a > b] on floats; false as soon as one side is NaN. *)
Definition float_gt (a b : float) : bool := SFltb b a.
Definition float_eq (a b : float) : bool := SFeqb a b.

(** The literal [-1] the pool selector starts its running maximum from.
    Python compares a float with an int exactly, and [-1] is representable,
    so the comparison is the one with [-1.0]. *)
Definition minus_one : float := Eval vm_compute in float_of_Z (-1).

(** What [json.loads] builds. A [JDict] lists its items in insertion order;
    a Python dict has no two items with the same key. *)
#[warnings="-register-all"]
Inductive json : Type :=
| JNull
| JBool (b : bool)
| JInt (z : Z)
| JFloat (f : float)
| JStr (s : string)
| JList (l : list json)
| JDict (d : list (string * json)).

(** [decimal.Decimal]: sign, coefficient and exponent, or a special value.
    Signs and payloads of NaNs are not tracked. *)
Inductive Decimal : Type :=
| DFinite (sign : bool) (coefficient : N) (exponent : Z)
| DInfinity (sign : bool)
| DNaN.

Inductive message : Type :=
| NO_LIQUDITY
| UnrecognisedMethod (method query_url : string)
| BadLiteral.

Inductive exn : Type :=
| NoPositionsError
| InvalidSolanaAddress (address : string)
| InvalidTokens (tokens : option (list string))
| TransactionNotFoundError
| ValueError (msg : message)
| TypeError
| KeyError (key : string)
| AttributeError
| OverflowError
| InvalidOperation
| JSONDecodeError.

(** The exceptions of Python itself, as opposed to those of
    [custom_exceptions]. *)
Definition builtin (e : exn) : bool :=
  match e with
  | NoPositionsError | InvalidSolanaAddress _ | InvalidTokens _
  | TransactionNotFoundError => false
  | _ => true
  end.

Inductive result (A : Type) : Type :=
| Return (a : A)
| Raise (e : exn).
Arguments Return {A} a.
Arguments Raise {A} e.

Definition rbind {A B} (r : result A) (k : A -> result B) : result B :=
  match r with
  | Return a => k a
  | Raise e => Raise e
  end.

Declare Scope py_scope.
Delimit Scope py_scope with py.
Notation "'let?' x ':=' r 'in' k" := (rbind r (fun x => k))
  (at level 10, x name, r at level 100, k at level 200) : py_scope.
Open Scope py_scope.

(** The parsers of the Python runtime that the clients reach through
    [float(...)], [int(...)] and [Decimal(...)]; [None] is the exception the
    constructor raises on a string it rejects. [Decimal_of_seq] is
    [Decimal(list)], which reads a list as a (sign, digits, exponent) triple
    and raises [ValueError] on any other list. *)
Class PyRuntime : Type := {
  float_of_str : string -> option float;
  int_of_str : string -> option Z;
  Decimal_of_str : string -> option Decimal;
  Decimal_of_seq : list json -> option Decimal
}.

Module Py.

(** [bool(v)]. *)
Definition truthy (v : json) : bool :=
  match v with
  | JNull => false
  | JBool b => b
  | JInt z => negb (z =? 0)
  | JFloat (S754_zero _) => false
  | JFloat _ => true
  | JStr s => negb (String.eqb s "")
  | JList l => match l with [] => false | _ => true end
  | JDict d => match d with [] => false | _ => true end
  end.

(** [v == s] for a string [s]. *)
Definition eq_str (v : json) (s : string) : bool :=
  match v with
  | JStr t => String.eqb t s
  | _ => false
  end.

Fixpoint lookup (d : list (string * json)) (k : string) : option json :=
  match d with
  | [] => None
  | (k', v) :: rest => if String.eqb k' k then Some v else lookup rest k
  end.

(** [v.get(k, default)]. *)
Definition get (v : json) (k : string) (default : json) : result json :=
  match v with
  | JDict d => Return (match lookup d k with Some x => x | None => default end)
  | _ => Raise AttributeError
  end.

(** [v[k]] for a string [k]. *)
Definition getitem (v : json) (k : string) : result json :=
  match v with
  | JDict d => match lookup d k with Some x => Return x | None => Raise (KeyError k) end
  | _ => Raise TypeError
  end.

(** [k in v] for a string [k]. *)
Definition contains (k : string) (v : json) : result bool :=
  match v with
  | JDict d => Return (match lookup d k with Some _ => true | None => false end)
  | JStr s => Return (match index 0 k s with Some _ => true | None => false end)
  | JList l => Return (existsb (fun x => eq_str x k) l)
  | _ => Raise TypeError
  end.

(** [v.items()]. *)
Definition items (v : json) : result (list (string * json)) :=
  match v with
  | JDict d => Return d
  | _ => Raise AttributeError
  end.

Fixpoint chars (s : string) : list json :=
  match s with
  | EmptyString => []
  | String c rest => JStr (String c EmptyString) :: chars rest
  end.

(** The elements [for entry in v] goes through. *)
Definition iter (v : json) : result (list json) :=
  match v with
  | JList l => Return l
  | JStr s => Return (chars s)
  | JDict d => Return (map (fun kv => JStr (fst kv)) d)
  | _ => Raise TypeError
  end.

Definition one : float := Eval vm_compute in float_of_Z 1.

Definition float_of_bool (b : bool) : float :=
  if b then one else S754_zero false.

(** [float(v)]. An int too large for a double raises [OverflowError]. *)
Definition to_float {rt : PyRuntime} (v : json) : result float :=
  match v with
  | JFloat f => Return f
  | JInt z =>
      match float_of_Z z with
      | S754_infinity _ => Raise OverflowError
      | f => Return f
      end
  | JBool b => Return (float_of_bool b)
  | JStr s =>
      match float_of_str s with
      | Some f => Return f
      | None => Raise (ValueError BadLiteral)
      end
  | _ => Raise TypeError
  end.

(** [int(v)]; a float is truncated towards zero. *)
Definition to_int {rt : PyRuntime} (v : json) : result Z :=
  match v with
  | JInt z => Return z
  | JBool b => Return (if b then 1 else 0)
  | JFloat (S754_zero _) => Return 0
  | JFloat (S754_finite s m e) =>
      let a := if 0 <=? e then Z.shiftl (Zpos m) e else Z.shiftr (Zpos m) (- e) in
      Return (if s then - a else a)
  | JFloat (S754_infinity _) => Raise OverflowError
  | JFloat S754_nan => Raise (ValueError BadLiteral)
  | JStr s =>
      match int_of_str s with
      | Some z => Return z
      | None => Raise (ValueError BadLiteral)
      end
  | _ => Raise TypeError
  end.

Definition Decimal_of_Z (z : Z) : Decimal := DFinite (z <? 0) (Z.abs_N z) 0.

(** Number of trailing zero bits. *)
Fixpoint ctz (m : positive) : N :=
  match m with
  | xO p => N.succ (ctz p)
  | _ => 0%N
  end.

(** [Decimal.from_float]: the exact value [n / 2^k] of the float, with
    [n / 2^k] in lowest terms, written as [n * 5^k] times [10^-k]. *)
Definition Decimal_of_float (f : float) : Decimal :=
  match f with
  | S754_zero s => DFinite s 0 0
  | S754_infinity s => DInfinity s
  | S754_nan => DNaN
  | S754_finite s m e =>
      if 0 <=? e then DFinite s (N.shiftl (Npos m) (Z.to_N e)) 0
      else
        let t := N.min (ctz m) (Z.to_N (- e)) in
        let n := N.shiftr (Npos m) t in
        let k := (Z.to_N (- e) - t)%N in
        DFinite s (n * 5 ^ k)%N (- Z.of_N k)
  end.

(** [Decimal(v)]. *)
Definition to_Decimal {rt : PyRuntime} (v : json) : result Decimal :=
  match v with
  | JInt z => Return (Decimal_of_Z z)
  | JBool b => Return (Decimal_of_Z (if b then 1 else 0))
  | JFloat f => Return (Decimal_of_float f)
  | JStr s =>
      match Decimal_of_str s with
      | Some d => Return d
      | None => Raise InvalidOperation
      end
  | JList l =>
      match Decimal_of_seq l with
      | Some d => Return d
      | None => Raise (ValueError BadLiteral)
      end
  | _ => Raise TypeError
  end.

(** [bool(d)] for a Decimal: false exactly on a zero. *)
Definition Decimal_truthy (d : Decimal) : bool :=
  match d with
  | DFinite _ c _ => negb (c =? 0)%N
  | _ => true
  end.

(** [sep.join(l)]. *)
Fixpoint join (sep : string) (l : list string) : string :=
  match l with
  | [] => ""
  | [x] => x
  | x :: rest => String.append x (String.append sep (join sep rest))
  end.

Definition upper_ascii (c : ascii) : ascii :=
  let n := nat_of_ascii c in
  if (97 <=? n)%nat && (n <=? 122)%nat then ascii_of_nat (n - 32) else c.

(** [s.upper()] on ASCII letters. *)
Fixpoint upper (s : string) : string :=
  match s with
  | EmptyString => EmptyString
  | String c rest => String (upper_ascii c) (upper rest)
  end.

End Py.

(** ** Shared output types ([common.py]) *)

Record PriceInfo : Type := mkPriceInfo {
  pi_price : Decimal;
  pi_liquidity : option Decimal
}.

(** A field that one client fills with the int [0] and the other with a
    Decimal. *)
Inductive number : Type :=
| Int (z : Z)
| Dec (d : Decimal).

Record TokenOverview : Type := mkTokenOverview {
  price : Decimal;
  symbol : json;
  decimals : Z;
  lastTradeUnixTime : Z;
  liquidity : Decimal;
  supply : number
}.

(** ** Collaborators and the network *)

(** What the clients import: the address predicate of [helpers], the
    constants of [constants] and [config]. [DEX_SCREENER_TOKEN_URL] is the
    template applied, [DEX_SCREENER_TOKEN_URL.format(x)]. *)
Class Config : Type := {
  is_solana_address : string -> bool;
  SOL_MINT : string;
  MULTI_PRICE_URL : string;
  DEX_SCREENER_TOKEN_URL : string -> string;
  BIRD_EYE_TOKEN : string
}.

Inductive verb : Type := GET | POST.

Record Request : Type := mkRequest {
  req_verb : verb;
  req_url : string;
  req_headers : list (string * string)
}.

(** [body] is what [.json()] returns, [None] when the body is not JSON. *)
Record Response : Type := mkResponse {
  status_code : Z;
  body : option json
}.

Definition response_json (resp : Response) : result json :=
  match body resp with
  | Some v => Return v
  | None => Raise JSONDecodeError
  end.

(** A client method: from the requests sent so far to its outcome and the
    requests sent once it is over. *)
Definition M (A : Type) : Type := list Request -> result A * list Request.

Definition ret {A} (a : A) : M A := fun log => (Return a, log).
Definition raise {A} (e : exn) : M A := fun log => (Raise e, log).
Definition lift {A} (r : result A) : M A := fun log => (r, log).

Definition bind {A B} (m : M A) (k : A -> M B) : M B :=
  fun log =>
    match m log with
    | (Return a, log') => k a log'
    | (Raise e, log') => (Raise e, log')
    end.

Notation "'let*' x ':=' m 'in' k" := (bind m (fun x => k))
  (at level 10, x name, m at level 100, k at level 200) : py_scope.
Notation "m ';;' k" := (bind m (fun _ => k))
  (at level 100, k at level 200, right associativity) : py_scope.

(** The upstream service during one call of a client: what it answers to a
    request. The answer is a function of the request, so an instance stands
    for the upstream as long as it answers alike; two calls that may be
    answered differently are two instances. *)
Class Network : Type := {
  upstream : Request -> Response
}.

(** [requests.get] and [requests.post]: the request goes out and the
    upstream answers. *)
Definition send {net : Network} (r : Request) : M Response :=
  fun log => (Return (upstream r), log ++ [r]).

(** ** [dexscreener.py] *)

Module DexScreenerClient.
Section Client.
Context {cfg : Config} {rt : PyRuntime} {net : Network}.

Definition _validate_token_address (token_address : string) : result unit :=
  if String.eqb token_address "" then Raise NoPositionsError
  else if is_solana_address token_address then Return tt
  else Raise (InvalidSolanaAddress token_address).

Definition _validate_response (resp : Response) : result unit :=
  if status_code resp =? 200 then Return tt else Raise (InvalidTokens None).

Definition request_for (token_address : string) : Request :=
  mkRequest GET (DEX_SCREENER_TOKEN_URL token_address) [].

Definition _call_api (token_address : string) : M json :=
  lift (_validate_token_address token_address) ;;
  let* api_response := send (request_for token_address) in
  lift (_validate_response api_response) ;;
  lift (response_json api_response).

Fixpoint _validate_token_addresses_loop (token_addresses : list string)
    : result unit :=
  match token_addresses with
  | [] => Return tt
  | address :: rest =>
      let? _ := _validate_token_address address in
      _validate_token_addresses_loop rest
  end.

Definition _validate_token_addresses (token_addresses : list string)
    : result unit :=
  match token_addresses with
  | [] => Raise NoPositionsError
  | _ => _validate_token_addresses_loop token_addresses
  end.

(** Not called by the fetch methods. *)
Definition _call_api_bulk (token_addresses : list string) : M json :=
  match token_addresses with
  | [] => raise NoPositionsError
  | _ =>
      lift (_validate_token_addresses token_addresses) ;;
      let token_addresses_str := Py.join "," token_addresses in
      let* api_response :=
        send (mkRequest GET (DEX_SCREENER_TOKEN_URL token_addresses_str) []) in
      lift (_validate_response api_response) ;;
      lift (response_json api_response)
  end.

(** The condition of the selector's [if]: [and] does not look at the quote
    token of an entry whose base token is another one. *)
Definition pool_matches (entry : json) (address : string) : result bool :=
  let? base := Py.get entry "baseToken" (JDict []) in
  let? base_address := Py.get base "address" JNull in
  if Py.eq_str base_address address then
    let? quote := Py.getitem entry "quoteToken" in
    let? quote_address := Py.getitem quote "address" in
    Return (Py.eq_str quote_address SOL_MINT)
  else Return false.

(** [float(entry.get("liquidity", {}).get("usd", 0))]. *)
Definition pool_liquidity_usd (entry : json) : result float :=
  let? liq := Py.get entry "liquidity" (JDict []) in
  let? usd := Py.get liq "usd" (JInt 0) in
  Py.to_float usd.

(** The [for] loop of the selector, from the running [max_entry] and
    [max_liquidity_usd]. *)
Fixpoint largest_pool_loop (token_pairs : list json) (address : string)
    (max_entry : json) (max_liquidity_usd : float) : result json :=
  match token_pairs with
  | [] => Return max_entry
  | entry :: rest =>
      let? hit := pool_matches entry address in
      if hit then
        let? liquidity_usd := pool_liquidity_usd entry in
        if float_gt liquidity_usd max_liquidity_usd
        then largest_pool_loop rest address entry liquidity_usd
        else largest_pool_loop rest address max_entry max_liquidity_usd
      else largest_pool_loop rest address max_entry max_liquidity_usd
  end.

Definition find_largest_pool_with_sol (token_pairs : json) (address : string)
    : result json :=
  let? entries := Py.iter token_pairs in
  largest_pool_loop entries address (JDict []) minus_one.

(** [Decimal(final_data["liquidity"].get("usd", 0)) if "liquidity" in
    final_data else None], as both fetch methods write it. *)
Definition selected_liquidity (final_data : json) : result (option Decimal) :=
  let? present := Py.contains "liquidity" final_data in
  if present then
    let? liq := Py.getitem final_data "liquidity" in
    let? usd := Py.get liq "usd" (JInt 0) in
    let? d := Py.to_Decimal usd in
    Return (Some d)
  else Return None.

(** The branch of [fetch_prices_dex] taken for an address that has
    pairs. *)
Definition price_of_pairs (api_response : json) (address : string)
    : result PriceInfo :=
  let? pairs := Py.getitem api_response "pairs" in
  let? final_data := find_largest_pool_with_sol pairs address in
  let? liquidity := selected_liquidity final_data in
  let? price_usd := Py.get final_data "priceUsd" (JInt 0) in
  let? price := Py.to_Decimal price_usd in
  Return (mkPriceInfo price liquidity).

(** The [for] loop of [fetch_prices_dex], from the current [prices] and
    [invalid_token_list]. *)
Fixpoint fetch_prices_loop (token_addresses : list string)
    (prices : gmap string PriceInfo) (invalid_token_list : list string)
    : M (gmap string PriceInfo * list string) :=
  match token_addresses with
  | [] => ret (prices, invalid_token_list)
  | address :: rest =>
      let* api_response := _call_api address in
      let* pairs := lift (Py.get api_response "pairs" JNull) in
      if Py.truthy pairs then
        let* info := lift (price_of_pairs api_response address) in
        fetch_prices_loop rest (<[address := info]> prices) invalid_token_list
      else
        fetch_prices_loop rest prices (invalid_token_list ++ [address])
  end.

Definition fetch_prices_dex (token_addresses : list string)
    : M (gmap string PriceInfo) :=
  match token_addresses with
  | [] => raise NoPositionsError
  | _ =>
      let* st := fetch_prices_loop token_addresses ∅ [] in
      match snd st with
      | [] => ret (fst st)
      | invalid_token_list => raise (InvalidTokens (Some invalid_token_list))
      end
  end.

(** The body of [fetch_token_overview] once the pairs are known to be
    there. *)
Definition overview_of_pairs (api_response : json) (address : string)
    : result TokenOverview :=
  let? pairs := Py.getitem api_response "pairs" in
  let? final_data := find_largest_pool_with_sol pairs address in
  let? liquidity := selected_liquidity final_data in
  match liquidity with
  | None => Raise (ValueError NO_LIQUDITY)
  | Some liq =>
      if Py.Decimal_truthy liq then
        let? price_usd := Py.get final_data "priceUsd" (JInt 0) in
        let? price := Py.to_Decimal price_usd in
        let? symbol := Py.get final_data "symbol" (JStr "") in
        let? decimals_raw := Py.get final_data "decimals" (JInt 0) in
        let? decimals := Py.to_int decimals_raw in
        let? last_raw := Py.get final_data "lastTradeUnixTime" (JInt 0) in
        let? lastTradeUnixTime := Py.to_int last_raw in
        let? supply_raw := Py.get final_data "supply" (JInt 0) in
        let? supply := Py.to_Decimal supply_raw in
        Return (mkTokenOverview price symbol decimals lastTradeUnixTime liq
                  (Dec supply))
      else Raise (ValueError NO_LIQUDITY)
  end.

Definition fetch_token_overview (address : string) : M TokenOverview :=
  if is_solana_address address then
    let* api_response := _call_api address in
    let* pairs := lift (Py.get api_response "pairs" JNull) in
    if Py.truthy pairs then lift (overview_of_pairs api_response address)
    else raise TransactionNotFoundError
  else raise (InvalidSolanaAddress address).

End Client.
End DexScreenerClient.

(** ** [birdeye.py] *)

Module BirdEyeClient.
Section Client.
Context {cfg : Config} {rt : PyRuntime} {net : Network}.

Definition _headers : list (string * string) :=
  [("accept", "application/json"); ("x-chain", "solana");
   ("X-API-KEY", BIRD_EYE_TOKEN)].

Definition _make_api_call (method query_url : string) : M Response :=
  let m := Py.upper method in
  if String.eqb m "GET" then send (mkRequest GET query_url _headers)
  else if String.eqb m "POST" then send (mkRequest POST query_url _headers)
  else raise (ValueError (UnrecognisedMethod method query_url)).

Definition prices_url (token_addresses : list string) : string :=
  String.append MULTI_PRICE_URL
    (String.append "?include_liquidity=true&list_address="
       (Py.join "%2C" token_addresses)).

(** The [for] loop of [fetch_prices] over [data.items()], from the current
    [price_details] and [invalid_token_list]. *)
Fixpoint price_details_loop (items : list (string * json))
    (price_details : gmap string PriceInfo) (invalid_token_list : list string)
    : result (gmap string PriceInfo * list string) :=
  match items with
  | [] => Return (price_details, invalid_token_list)
  | (address, details) :: rest =>
      let? has_value := Py.contains "value" details in
      let? has_both :=
        if has_value then Py.contains "liquidity" details else Return false in
      if has_both then
        let? value_raw := Py.getitem details "value" in
        let? value := Py.to_Decimal value_raw in
        let? liquidity_raw := Py.getitem details "liquidity" in
        let? liq := Py.to_Decimal liquidity_raw in
        price_details_loop rest
          (<[address := mkPriceInfo value (Some liq)]> price_details)
          invalid_token_list
      else
        price_details_loop rest price_details (invalid_token_list ++ [address])
  end.

Definition fetch_prices (token_addresses : list string)
    : M (gmap string PriceInfo) :=
  match token_addresses with
  | [] => raise NoPositionsError
  | _ =>
      let* api_response := _make_api_call "GET" (prices_url token_addresses) in
      if status_code api_response =? 200 then
        lift (
          let? payload := response_json api_response in
          let? data := Py.get payload "data" (JDict []) in
          let? items := Py.items data in
          let? st := price_details_loop items ∅ [] in
          match snd st with
          | [] => Return (fst st)
          | invalid_token_list => Raise (InvalidTokens (Some invalid_token_list))
          end)
      else raise (InvalidTokens None)
  end.

Definition overview_url (address : string) : string :=
  String.append MULTI_PRICE_URL
    (String.append
       "?include_liquidity=true&include_decimals=true&list_address=" address).

Definition fetch_token_overview (address : string) : M TokenOverview :=
  if is_solana_address address then
    let* api_response := _make_api_call "GET" (overview_url address) in
    if status_code api_response =? 200 then
      lift (
        let? payload := response_json api_response in
        let? data := Py.getitem payload "data" in
        let? token_data := Py.get data address (JDict []) in
        if Py.truthy token_data then
          let? liquidity_raw := Py.get token_data "liquidity" JNull in
          if Py.truthy liquidity_raw then
            let? value_raw := Py.get token_data "value" (JInt 0) in
            let? price := Py.to_Decimal value_raw in
            let? liquidity_again := Py.get token_data "liquidity" JNull in
            let? liq := Py.to_Decimal liquidity_again in
            Return (mkTokenOverview price (JInt 0) 0 0 liq (Int 0))
          else Raise (ValueError NO_LIQUDITY)
        else Raise (InvalidTokens (Some [address])))
    else raise (InvalidTokens (Some [address]))
  else raise (InvalidSolanaAddress address).

End Client.
End BirdEyeClient.


(** ** Vocabulary of the statements *)

Section SelectorVocabulary.
Context {cfg : Config} {rt : PyRuntime}.

(** [entry[side].address] when it is there and is a string. *)
Definition address_at (entry : json) (side : string) : option string :=
  match entry with
  | JDict d =>
      match Py.lookup d side with
      | Some (JDict t) =>
          match Py.lookup t "address" with
          | Some (JStr s) => Some s
          | _ => None
          end
      | _ => None
      end
  | _ => None
  end.

(** A pair of [address] quoted against the native asset:
    [baseToken.address == address] and [quoteToken.address == SOL_MINT]. *)
Definition sol_pool (address : string) (entry : json) : bool :=
  match address_at entry "baseToken", address_at entry "quoteToken" with
  | Some b, Some q => String.eqb b address && String.eqb q SOL_MINT
  | _, _ => false
  end.

(** The selector reads [entry] without an exception. *)
Definition readable (address : string) (entry : json) : bool :=
  match DexScreenerClient.pool_matches entry address with
  | Return true =>
      match DexScreenerClient.pool_liquidity_usd entry with
      | Return _ => true
      | Raise _ => false
      end
  | Return false => true
  | Raise _ => false
  end.

(** No native-quoted pair of the list has a liquidity above [m]. *)
Definition sol_pools_at_most (address : string) (pairs : list json) (m : float)
    : Prop :=
  forall e f, In e pairs -> sol_pool address e = true ->
    DexScreenerClient.pool_liquidity_usd e = Return f -> float_gt f m = false.

End SelectorVocabulary.

Section DexVocabulary.
Context {cfg : Config} {rt : PyRuntime} {net : Network}.
Import DexScreenerClient.

(** [_validate_token_address] accepts the address. *)
Definition valid_address (a : string) : bool :=
  negb (String.eqb a "") && is_solana_address a.

(** What the upstream answers to the request for [a]. *)
Definition answer (a : string) : Response := upstream (request_for a).

(** The answer for [a] is a JSON object with a non-empty [pairs]. *)
Definition has_pairs (a : string) : bool :=
  match body (answer a) with
  | Some v =>
      match Py.get v "pairs" JNull with
      | Return p => Py.truthy p
      | Raise _ => false
      end
  | None => false
  end.

(** The loop of [fetch_prices_dex] gets through [a] without an exception:
    the address is valid, the answer is a 200 with a JSON object, and its
    pairs, when there are some, yield a price. *)
Definition completes (a : string) : bool :=
  valid_address a && (status_code (answer a) =? 200) &&
  match body (answer a) with
  | Some v =>
      match Py.get v "pairs" JNull with
      | Return p =>
          if Py.truthy p then
            match price_of_pairs v a with
            | Return _ => true
            | Raise _ => false
            end
          else true
      | Raise _ => false
      end
  | None => false
  end.

(** The addresses the loop puts in [invalid_token_list]. *)
Definition rejected (addresses : list string) : list string :=
  List.filter (fun a => negb (has_pairs a)) addresses.

End DexVocabulary.

(** The specification's [UpstreamError] is [InvalidTokens()], raised without
    a token list. *)
Definition UpstreamError : exn := InvalidTokens None.

Section BirdVocabulary.
Context {cfg : Config}.

Definition prices_request (token_addresses : list string) : Request :=
  mkRequest GET (BirdEyeClient.prices_url token_addresses) BirdEyeClient._headers.

Definition overview_request (address : string) : Request :=
  mkRequest GET (BirdEyeClient.overview_url address) BirdEyeClient._headers.

(** A JSON number. *)
Definition is_number (v : json) : bool :=
  match v with
  | JInt _ | JFloat _ => true
  | _ => false
  end.

End BirdVocabulary.

Section TwoCallsVocabulary.
Context {cfg : Config}.

(** Of two calls, the second is answered, for [a], as the first was. *)
Definition same_answer (first later : Network) (a : string) : Prop :=
  answer (net := later) a = answer (net := first) a.

End TwoCallsVocabulary.

Section MoreVocabulary.
Context {cfg : Config} {rt : PyRuntime}.

(** The request [_call_api_bulk] sends. *)
Definition bulk_request (token_addresses : list string) : Request :=
  mkRequest GET (DEX_SCREENER_TOKEN_URL (Py.join "," token_addresses)) [].

(** The spellings of a lower-case word, each letter in either case. *)
Fixpoint casings (word : string) : list string :=
  match word with
  | EmptyString => [EmptyString]
  | String c rest =>
      flat_map (fun t => [String c t; String (Py.upper_ascii c) t])
        (casings rest)
  end.

(** A string of ASCII characters, on which [Py.upper] is Python's
    [str.upper]. *)
Definition ascii_only (s : string) : bool :=
  forallb (fun c => (nat_of_ascii c <? 128)%nat) (list_ascii_of_string s).

(** A record of the batch upstream that carries both [value] and
    [liquidity]. *)
Definition complete_record (details : json) : bool :=
  match details with
  | JDict d =>
      match Py.lookup d "value", Py.lookup d "liquidity" with
      | Some _, Some _ => true
      | _, _ => false
      end
  | _ => false
  end.

(** A record the loop of the batch [fetch_prices] reads without an
    exception: a JSON object whose [value] and [liquidity], when both are
    there, convert to Decimals. *)
Definition convertible_record (details : json) : bool :=
  match details with
  | JDict d =>
      match Py.lookup d "value", Py.lookup d "liquidity" with
      | Some x, Some y =>
          match Py.to_Decimal x, Py.to_Decimal y with
          | Return _, Return _ => true
          | _, _ => false
          end
      | _, _ => true
      end
  | _ => false
  end.

(** The entry the batch [fetch_prices] makes for a complete record. *)
Definition record_price (details : json) : option PriceInfo :=
  match details with
  | JDict d =>
      match Py.lookup d "value", Py.lookup d "liquidity" with
      | Some x, Some y =>
          match Py.to_Decimal x, Py.to_Decimal y with
          | Return dx, Return dy => Some (mkPriceInfo dx (Some dy))
          | _, _ => None
          end
      | _, _ => None
      end
  | _ => None
  end.

(** The keys of the records that lack [value] or [liquidity]. *)
Definition incomplete_keys (items : list (string * json)) : list string :=
  map fst (List.filter (fun kv => negb (complete_record (snd kv))) items).

End MoreVocabulary.

(** ** Fixtures

    A configuration, a runtime and upstream payloads for the examples. The
    address predicate accepts base58 strings of 32 to 44 characters; the
    parsers read plain decimal literals ([-12], [0.0123]) and reject any
    other string. *)

Module Fixture.

Definition base58 : string :=
  "123456789ABCDEFGHJKLMNPQRSTUVWXYZabcdefghijkmnopqrstuvwxyz".

Definition is_base58_address (a : string) : bool :=
  let cs := list_ascii_of_string a in
  (32 <=? Z.of_nat (List.length cs)) && (Z.of_nat (List.length cs) <=? 44)
  && forallb (fun c => existsb (Ascii.eqb c) (list_ascii_of_string base58)) cs.

Definition sol : string := "So11111111111111111111111111111111111111112".
Definition usdc : string := "EPjFWdd5AufqSSqeM2qN1xzybapC8G4wEGGkZwyTDt1v".
Definition usdt : string := "Es9vMFrzaCERmJfrF4H2FYD4KCoNkY11McCe8BenwNYB".
Definition bonk : string := "DezXAZ8z7PnrnRJjz3wXBoRgixCa6xjnB7YaB1pPB263".

Definition config : Config := {|
  is_solana_address := is_base58_address;
  SOL_MINT := sol;
  MULTI_PRICE_URL := "https://public-api.birdeye.so/defi/multi_price";
  DEX_SCREENER_TOKEN_URL :=
    String.append "https://api.dexscreener.com/latest/dex/tokens/";
  BIRD_EYE_TOKEN := "key"
|}.

Definition digit_of (c : ascii) : option N :=
  let n := N_of_ascii c in
  if ((48 <=? n) && (n <=? 57))%N then Some (n - 48)%N else None.

Fixpoint digits_value (s : string) (acc : N) : option N :=
  match s with
  | EmptyString => Some acc
  | String c rest =>
      match digit_of c with
      | Some d => digits_value rest (10 * acc + d)%N
      | None => None
      end
  end.

Fixpoint split_dot (s : string) : string * option string :=
  match s with
  | EmptyString => (EmptyString, None)
  | String c rest =>
      if Ascii.eqb c "." then (EmptyString, Some rest)
      else let (a, b) := split_dot rest in (String c a, b)
  end.

(** Coefficient and exponent of [digits] or [digits.digits]. *)
Definition unsigned_literal (s : string) : option (N * Z) :=
  match split_dot s with
  | (ip, None) =>
      if String.eqb ip "" then None
      else option_map (fun n => (n, 0)) (digits_value ip 0)
  | (ip, Some fp) =>
      if String.eqb (String.append ip fp) "" then None
      else option_map (fun n => (n, - Z.of_nat (String.length fp)))
             (digits_value (String.append ip fp) 0)
  end.

Definition literal (s : string) : option (bool * (N * Z)) :=
  match s with
  | String "-" rest => option_map (pair true) (unsigned_literal rest)
  | String "+" rest => option_map (pair false) (unsigned_literal rest)
  | _ => option_map (pair false) (unsigned_literal s)
  end.

Definition integer_literal (s : string) : option Z :=
  match literal s with
  | Some (sign, (n, 0)) => Some (if sign then - Z.of_N n else Z.of_N n)
  | _ => None
  end.

(** [int] takes no decimal point. *)
Definition int_literal (s : string) : option Z :=
  match split_dot s with
  | (_, None) => integer_literal s
  | (_, Some _) => None
  end.

(** The literals of the examples: a sign and digits for [int], a sign and
    digits with a decimal point for [Decimal], and for [float] those of
    them that denote an integer. Python reads more (a fraction as a float,
    exponents, blanks around the number, [inf] and [nan]); the examples
    send none of these. *)
Definition runtime : PyRuntime := {|
  float_of_str := fun s => option_map float_of_Z (integer_literal s);
  int_of_str := int_literal;
  Decimal_of_str := fun s =>
    option_map (fun l => DFinite (fst l) (fst (snd l)) (snd (snd l))) (literal s);
  Decimal_of_seq := fun _ => None
|}.

(** A raw trading pair as the per-token upstream lists it. *)
Definition pair (base quote : string) (usd : Z) (price_usd : string) : json :=
  JDict [("baseToken", JDict [("address", JStr base)]);
         ("quoteToken", JDict [("address", JStr quote)]);
         ("priceUsd", JStr price_usd);
         ("liquidity", JDict [("usd", JInt usd)])].

End Fixture.

(** ** An upstream for the examples *)

Module Market.
Import Fixture.
#[local] Existing Instance Fixture.config.

Definition jup : string := "JUPyiwrYJFskUPiHa7hkeR8VUtAeFoSYbKedZNsDvCN".
Definition wif : string := "EKpQGSJtjMFqKZ9KQanSqYXRcF8fBopzLHYxdM65zcjm".

Definition ok (v : json) : Response := mkResponse 200 (Some v).
Definition unavailable : Response := mkResponse 503 None.

Definition dex_url (a : string) : string := DEX_SCREENER_TOKEN_URL a.

(** A record of the batch upstream. *)
Definition quote (value liq : Z) : json :=
  JDict [("value", JFloat (float_of_Z value));
         ("liquidity", JFloat (float_of_Z liq))].

(** What the upstream knows, by URL: [usdc] has three pairs, two of them
    quoted against the native asset; [usdt] has one pair, quoted against
    [usdc]; [bonk] and [jup] have no pairs; the batch upstream prices [usdc]
    and leaves [bonk] out of its answer for the two, reports a zero
    liquidity for [bonk] and, for [jup], a zero liquidity written as a
    string. Any other URL is answered with a 503. *)
Definition table : list (string * Response) :=
  [(dex_url usdc,
    ok (JDict [("schemaVersion", JStr "1.0.0");
               ("pairs", JList [pair usdc sol 5 "1.01"; pair usdc sol 9 "1.02";
                                pair usdc usdt 100 "1.00"])]));
   (dex_url usdt, ok (JDict [("pairs", JList [pair usdt usdc 100 "1.00"])]));
   (dex_url bonk, ok (JDict [("pairs", JList [])]));
   (dex_url jup, ok (JDict [("pairs", JNull)]));
   (BirdEyeClient.prices_url [usdc; bonk],
    ok (JDict [("data", JDict [(usdc, quote 1 52000000)]);
               ("success", JBool true)]));
   (BirdEyeClient.overview_url usdc,
    ok (JDict [("data", JDict [(usdc, quote 1 52000000)])]));
   (BirdEyeClient.overview_url bonk,
    ok (JDict [("data", JDict [(bonk, JDict [("value", JFloat (float_of_Z 1));
                                             ("liquidity", JInt 0)])])]));
   (BirdEyeClient.overview_url jup,
    ok (JDict [("data", JDict [(jup, JDict [("value", JFloat (float_of_Z 1));
                                            ("liquidity", JStr "0")])])]))].

Definition network : Network := {|
  upstream := fun r =>
    match List.find (fun kv => String.eqb (fst kv) (req_url r)) table with
    | Some kv => snd kv
    | None => unavailable
    end
|}.

(** The three pairs of the specification's example: liquidity 5 and 9
    against the native asset, 100 against another token. *)
Definition three_pairs : list json :=
  [pair usdc sol 5 "1.01"; pair usdc sol 9 "1.02"; pair usdc usdt 100 "1.00"].

(** Two native-quoted pairs with the same, maximal liquidity 9 around a pair
    quoted against another token. *)
Definition tied_pairs : list json :=
  [pair usdc sol 5 "1.01"; pair usdc sol 9 "1.02"; pair usdc usdt 100 "1.00";
   pair usdc sol 9 "1.03"].

(** The overview of [usdc] the batch client builds. *)
Definition usdc_overview : TokenOverview :=
  mkTokenOverview (DFinite false 1 0) (JInt 0) 0 0 (DFinite false 52000000 0)
    (Int 0).

End Market.

(** ** A batch upstream with gaps *)

Module Gaps.
Import Fixture Market.
#[local] Existing Instance Fixture.config.

(** Asked for [usdc], [bonk] and [jup], the batch upstream sends a complete
    record for [usdc], a record without [liquidity] for [bonk] and an empty
    one for [jup]; asked for [usdc] and [wif], a complete record and a null;
    asked for the overview of [usdt], a [data] without a record for it;
    asked for the pairs of [usdc] and [usdt] together, the pairs of both.
    Any other URL is answered as in [Market]. *)
Definition gap_items : list (string * json) :=
  [(usdc, quote 1 52000000);
   (bonk, JDict [("value", JFloat (float_of_Z 1))]);
   (jup, JDict [])].

Definition both_pairs : json :=
  JDict [("pairs", JList (three_pairs ++ [pair usdt usdc 100 "1.00"]))].

Definition table : list (string * Response) :=
  [(BirdEyeClient.prices_url [usdc; bonk; jup],
    ok (JDict [("data", JDict gap_items)]));
   (dex_url (Py.join "," [usdc; usdt]), ok both_pairs);
   (BirdEyeClient.prices_url [usdc; wif],
    ok (JDict [("data", JDict [(usdc, quote 1 52000000); (wif, JNull)])]));
   (BirdEyeClient.overview_url usdt, ok (JDict [("data", JDict [])]))].

Definition network : Network := {|
  upstream := fun r =>
    match List.find (fun kv => String.eqb (fst kv) (req_url r)) table with
    | Some kv => snd kv
    | None => upstream (Network := Market.network) r
    end
|}.

(** What the per-token client makes of [usdc] and [usdt] on [Market]. *)
Definition usdc_usdt_prices : gmap string PriceInfo :=
  {[ usdc := mkPriceInfo (DFinite false 102 (-2)) (Some (DFinite false 9 0));
     usdt := mkPriceInfo (Py.Decimal_of_Z 0) None ]}.

Definition usdc_dex_overview : TokenOverview :=
  mkTokenOverview (DFinite false 102 (-2)) (JStr "") 0 0 (DFinite false 9 0)
    (Dec (DFinite false 0 0)).

End Gaps.

(** ** Order on floats *)

Section FloatOrder.

Lemma float_gt_irrefl (a : float) : float_gt a a = false.
Proof.
  unfold float_gt, SFltb, SFcompare.
  destruct a as [s|s| |s m e]; try destruct s; try reflexivity;
    rewrite Z.compare_refl;
    change (Pos.compare_cont Eq m m) with (Pos.compare m m);
    rewrite Pos.compare_refl; reflexivity.
Qed.

Ltac float_cases :=
  change (Pos.compare_cont Eq) with Pos.compare;
  repeat match goal with
    | |- context [Z.compare ?x ?y] => destruct (Z.compare_spec x y); try lia
    end;
  subst;
  repeat match goal with
    | |- context [Pos.compare ?x ?y] => destruct (Pos.compare_spec x y); try lia
    end;
  simpl; try discriminate; try reflexivity; try lia.

Lemma float_gt_trans (a b c : float) :
  float_gt a b = true -> float_gt b c = true -> float_gt a c = true.
Proof.
  unfold float_gt, SFltb, SFcompare.
  destruct a as [sa|sa| |sa ma ea], b as [sb|sb| |sb mb eb],
    c as [sc|sc| |sc mc ec];
    try destruct sa; try destruct sb; try destruct sc;
    try discriminate; try reflexivity; float_cases.
Qed.

(** Equal floats are above the same floats. *)
Lemma float_eq_gt (a b c : float) :
  float_eq a b = true -> float_gt b c = true -> float_gt a c = true.
Proof.
  unfold float_eq, float_gt, SFeqb, SFltb, SFcompare.
  destruct a as [sa|sa| |sa ma ea], b as [sb|sb| |sb mb eb],
    c as [sc|sc| |sc mc ec];
    try destruct sa; try destruct sb; try destruct sc;
    try discriminate; try reflexivity; float_cases.
Qed.

Lemma float_gt_not_nan (a x : float) : float_gt a x = true -> a <> S754_nan.
Proof. intros Ha ->. destruct x as [[]|[]| |[]]; discriminate. Qed.

(** Two floats that each exceed something are comparable. *)
Lemma float_gt_total (a b x y : float) :
  float_gt a x = true -> float_gt b y = true ->
  float_gt a b = false -> float_eq a b = false -> float_gt b a = true.
Proof.
  intros Ha Hb.
  apply float_gt_not_nan in Ha. apply float_gt_not_nan in Hb.
  unfold float_eq, float_gt, SFeqb, SFltb, SFcompare.
  destruct a as [sa|sa| |sa ma ea], b as [sb|sb| |sb mb eb];
    try destruct sa; try destruct sb;
    try congruence; try discriminate; try reflexivity; float_cases.
Qed.

End FloatOrder.


(** ** The pool selector *)

Ltac break_match :=
  match goal with
  | |- context [match ?x with _ => _ end] => destruct x eqn:?
  | H : context [match ?x with _ => _ end] |- _ => destruct x eqn:?
  end.

Ltac by_cases :=
  repeat (break_match; simplify_eq; simpl in *; try done).

Lemma rbind_raise {A B} (r : result A) (k : A -> result B) (e : exn) :
  rbind r k = Raise e ->
  r = Raise e \/ exists a, r = Return a /\ k a = Raise e.
Proof.
  destruct r as [a|x]; simpl; intros H;
    [right; exists a; now split|left; congruence].
Qed.

Ltac raised H :=
  apply rbind_raise in H as [H | (? & ? & H)].

Lemma rbind_return {A B} (r : result A) (k : A -> result B) (b : B) :
  rbind r k = Return b -> exists a, r = Return a /\ k a = Return b.
Proof. destruct r as [a|x]; simpl; intros H; [eauto|discriminate]. Qed.

Tactic Notation "returned" hyp(H) "as" simple_intropattern(a) simple_intropattern(Ha) :=
  apply rbind_return in H as (a & Ha & H).

Section Selector.
Context {cfg : Config} {rt : PyRuntime}.
Import DexScreenerClient.

Lemma pool_matches_sol_pool (entry : json) (address : string) (b : bool) :
  pool_matches entry address = Return b -> sol_pool address entry = b.
Proof.
  unfold pool_matches, sol_pool, address_at, Py.get, Py.getitem, Py.eq_str, rbind.
  intros Hm.
  repeat (break_match; simplify_eq; simpl in *; try done).
  all: simplify_eq; repeat match goal with
         | Hb : String.eqb _ _ = _ |- _ => rewrite Hb
         end; done.
Qed.

Lemma readable_inv (address : string) (entry : json) :
  readable address entry = true ->
  pool_matches entry address = Return (sol_pool address entry) /\
  (sol_pool address entry = true ->
   exists f, pool_liquidity_usd entry = Return f).
Proof.
  unfold readable. intros Hr.
  destruct (pool_matches entry address) as [b|x] eqn:Hm; [|discriminate].
  rewrite (pool_matches_sol_pool _ _ _ Hm). split; [reflexivity|].
  intros ->. destruct (pool_liquidity_usd entry); [eauto|discriminate].
Qed.


(** What the loop returns from a running [max_entry] and maximum [m]: the
    running entry when no native-quoted pair beats [m], and otherwise a
    native-quoted pair of the list that beats [m] and that no other one
    beats. *)
Lemma largest_pool_loop_spec (address : string) (pairs : list json) :
  Forall (fun e => readable address e = true) pairs ->
  forall (max_entry : json) (m : float),
  exists r, largest_pool_loop pairs address max_entry m = Return r /\
    ((r = max_entry /\ sol_pools_at_most address pairs m) \/
     (In r pairs /\ sol_pool address r = true /\
      exists fr, pool_liquidity_usd r = Return fr /\ float_gt fr m = true /\
        sol_pools_at_most address pairs fr)).
Proof.
  induction 1 as [|e rest He _ IH]; intros max_entry m.
  - exists max_entry. split; [reflexivity|]. left. split; [reflexivity|].
    intros ? ? [].
  - destruct (readable_inv _ _ He) as [Hm Hl]. simpl. rewrite Hm. simpl.
    destruct (sol_pool address e) eqn:Hs.
    + destruct (Hl eq_refl) as [fe Hfe]. rewrite Hfe. simpl.
      destruct (float_gt fe m) eqn:Hgt.
      * destruct (IH e fe) as (r & Hr & [[-> Hall] | (Hin & Hsr & fr & Hfr & Hgr & Hall)]).
        -- exists e. split; [exact Hr|]. right.
           split; [now left|]. split; [exact Hs|].
           exists fe. split; [exact Hfe|]. split; [exact Hgt|].
           intros e' f' [<-|Hin'] Hs' Hf'.
           ++ rewrite Hfe in Hf'. injection Hf' as <-. apply float_gt_irrefl.
           ++ eapply Hall; eauto.
        -- exists r. split; [exact Hr|]. right.
           split; [now right|]. split; [exact Hsr|].
           exists fr. split; [exact Hfr|].
           split; [eapply float_gt_trans; eauto|].
           intros e' f' [<-|Hin'] Hs' Hf'.
           ++ rewrite Hfe in Hf'. injection Hf' as <-.
              destruct (float_gt fe fr) eqn:Hback; [|reflexivity].
              rewrite <- (float_gt_irrefl fe). symmetry.
              eapply float_gt_trans; eauto.
           ++ eapply Hall; eauto.
      * destruct (IH max_entry m) as (r & Hr & [[-> Hall] | (Hin & Hsr & fr & Hfr & Hgr & Hall)]).
        -- exists max_entry. split; [exact Hr|]. left. split; [reflexivity|].
           intros e' f' [<-|Hin'] Hs' Hf'.
           ++ rewrite Hfe in Hf'. injection Hf' as <-. exact Hgt.
           ++ eapply Hall; eauto.
        -- exists r. split; [exact Hr|]. right.
           split; [now right|]. split; [exact Hsr|].
           exists fr. split; [exact Hfr|]. split; [exact Hgr|].
           intros e' f' [<-|Hin'] Hs' Hf'.
           ++ rewrite Hfe in Hf'. injection Hf' as <-.
              destruct (float_gt fe fr) eqn:Hback; [|reflexivity].
              rewrite <- Hgt. symmetry. eapply float_gt_trans; eauto.
           ++ eapply Hall; eauto.
    + destruct (IH max_entry m) as (r & Hr & [[-> Hall] | (Hin & Hsr & fr & Hfr & Hgr & Hall)]).
      * exists max_entry. split; [exact Hr|]. left. split; [reflexivity|].
        intros e' f' [<-|Hin'] Hs' Hf'; [congruence|eapply Hall; eauto].
      * exists r. split; [exact Hr|]. right.
        split; [now right|]. split; [exact Hsr|].
        exists fr. split; [exact Hfr|]. split; [exact Hgr|].
        intros e' f' [<-|Hin'] Hs' Hf'; [congruence|eapply Hall; eauto].
Qed.

(** The helpers that read Python objects raise built-in exceptions only. *)
Lemma get_raises (v : json) (k : string) (d : json) (e : exn) :
  Py.get v k d = Raise e -> builtin e = true.
Proof. unfold Py.get. intros; by_cases. Qed.

Lemma getitem_raises (v : json) (k : string) (e : exn) :
  Py.getitem v k = Raise e -> builtin e = true.
Proof. unfold Py.getitem. intros; by_cases. Qed.

Lemma contains_raises (k : string) (v : json) (e : exn) :
  Py.contains k v = Raise e -> builtin e = true.
Proof. unfold Py.contains. intros; by_cases. Qed.

Lemma iter_raises (v : json) (e : exn) :
  Py.iter v = Raise e -> builtin e = true.
Proof. unfold Py.iter. intros; by_cases. Qed.

Lemma to_float_raises (v : json) (e : exn) :
  Py.to_float v = Raise e -> builtin e = true.
Proof. unfold Py.to_float. intros; by_cases. Qed.

Lemma to_Decimal_raises (v : json) (e : exn) :
  Py.to_Decimal v = Raise e -> builtin e = true.
Proof. unfold Py.to_Decimal. intros; by_cases. Qed.

Lemma to_int_raises (v : json) (e : exn) :
  Py.to_int v = Raise e -> builtin e = true.
Proof. unfold Py.to_int. intros; by_cases. Qed.

Create HintDb raises.
#[local] Hint Resolve get_raises getitem_raises contains_raises iter_raises
  to_float_raises to_Decimal_raises to_int_raises : raises.

Lemma pool_matches_raises (entry : json) (address : string) (e : exn) :
  pool_matches entry address = Raise e -> builtin e = true.
Proof.
  unfold pool_matches. intros H.
  raised H; eauto with raises. raised H; eauto with raises.
  destruct (Py.eq_str _ _); [|discriminate].
  raised H; eauto with raises. raised H; eauto with raises. discriminate.
Qed.

Lemma pool_liquidity_usd_raises (entry : json) (e : exn) :
  pool_liquidity_usd entry = Raise e -> builtin e = true.
Proof.
  unfold pool_liquidity_usd. intros H.
  raised H; eauto with raises. raised H; eauto with raises.
Qed.

Lemma largest_pool_loop_raises (address : string) (pairs : list json) :
  forall (max_entry : json) (m : float) (e : exn),
  largest_pool_loop pairs address max_entry m = Raise e -> builtin e = true.
Proof.
  induction pairs as [|entry rest IH]; intros max_entry m e H; simpl in H.
  - discriminate.
  - raised H; [eauto using pool_matches_raises|].
    destruct x; [|eauto].
    raised H; [eauto using pool_liquidity_usd_raises|].
    destruct (float_gt _ _); eauto.
Qed.

Lemma find_largest_pool_with_sol_raises (token_pairs : json) (address : string)
    (e : exn) :
  find_largest_pool_with_sol token_pairs address = Raise e -> builtin e = true.
Proof.
  unfold find_largest_pool_with_sol. intros H.
  raised H; eauto with raises. eauto using largest_pool_loop_raises.
Qed.

Lemma selected_liquidity_raises (final_data : json) (e : exn) :
  selected_liquidity final_data = Raise e -> builtin e = true.
Proof.
  unfold selected_liquidity. intros H.
  raised H; eauto with raises. destruct x; [|discriminate].
  raised H; eauto with raises. raised H; eauto with raises.
  raised H; eauto with raises. discriminate.
Qed.

Lemma price_of_pairs_raises (api_response : json) (address : string) (e : exn) :
  price_of_pairs api_response address = Raise e -> builtin e = true.
Proof.
  unfold price_of_pairs. intros H.
  raised H; eauto with raises.
  raised H; [eauto using find_largest_pool_with_sol_raises|].
  raised H; [eauto using selected_liquidity_raises|].
  raised H; eauto with raises. raised H; eauto with raises. discriminate.
Qed.

(** Whatever the loop returns is the running entry or a native-quoted pair
    of the list. *)
Lemma largest_pool_loop_sound (address : string) (pairs : list json) :
  forall (max_entry : json) (m : float) (r : json),
  largest_pool_loop pairs address max_entry m = Return r ->
  r = max_entry \/ (In r pairs /\ sol_pool address r = true).
Proof.
  induction pairs as [|e rest IH]; intros max_entry m r Hr; simpl in Hr.
  - left. congruence.
  - destruct (pool_matches e address) as [b|x] eqn:Hm; [|discriminate].
    apply pool_matches_sol_pool in Hm. simpl in Hr.
    destruct b.
    + destruct (pool_liquidity_usd e) as [f|x]; [|discriminate]. simpl in Hr.
      destruct (float_gt f m).
      * destruct (IH _ _ _ Hr) as [->|[Hin Hs]].
        -- right. split; [now left|exact Hm].
        -- right. split; [now right|exact Hs].
      * destruct (IH _ _ _ Hr) as [->|[Hin Hs]]; [now left|].
        right. split; [now right|exact Hs].
    + destruct (IH _ _ _ Hr) as [->|[Hin Hs]]; [now left|].
      right. split; [now right|exact Hs].
Qed.

(** C3 (as amended). On a list of pairs it can read, the selector returns
    either the empty record or a pair of the list that has [address] as base
    token and the native asset as quote token, never another pair. It returns
    the empty record when no pair of the list is native-quoted, and also when
    none of the native-quoted pairs has a liquidity above the initial maximum
    [-1]. As soon as one native-quoted pair has a liquidity above [-1], it
    returns a native-quoted pair whose liquidity, compared as floats, no
    native-quoted pair of the list exceeds. *)
Theorem find_largest_pool_with_sol_maximal (address : string) (pairs : list json) :
  Forall (fun e => readable address e = true) pairs ->
  exists r, find_largest_pool_with_sol (JList pairs) address = Return r /\
    (r = JDict [] \/ (In r pairs /\ sol_pool address r = true)) /\
    ((forall e, In e pairs -> sol_pool address e = false) -> r = JDict []) /\
    (sol_pools_at_most address pairs minus_one -> r = JDict []) /\
    ((exists e f, In e pairs /\ sol_pool address e = true /\
        pool_liquidity_usd e = Return f /\ float_gt f minus_one = true) ->
     In r pairs /\ sol_pool address r = true /\
     exists fr, pool_liquidity_usd r = Return fr /\
       float_gt fr minus_one = true /\ sol_pools_at_most address pairs fr).
Proof.
  intros Hread. unfold find_largest_pool_with_sol. simpl.
  destruct (largest_pool_loop_spec address pairs Hread (JDict []) minus_one)
    as (r & Hr & Hcases).
  exists r. split; [exact Hr|].
  destruct Hcases as [[-> Hall] | (Hin & Hsr & fr & Hfr & Hgr & Hall)].
  - split; [now left|]. split; [reflexivity|]. split; [reflexivity|].
    intros (e & f & Hin & Hs & Hf & Hgt).
    rewrite (Hall e f Hin Hs Hf) in Hgt. discriminate.
  - split; [right; now split|]. split.
    { intros Hnone. rewrite (Hnone r Hin) in Hsr. discriminate. }
    split.
    { intros Hlow. rewrite (Hlow r fr Hin Hsr Hfr) in Hgr. discriminate. }
    intros _. split; [exact Hin|]. split; [exact Hsr|].
    exists fr. split; [exact Hfr|]. split; [exact Hgr|exact Hall].
Qed.

(** A list whose native-quoted pairs stay at or below [m] leaves the running
    entry in place. *)
Lemma largest_pool_loop_keeps (address : string) (pairs : list json)
    (max_entry : json) (m : float) :
  Forall (fun e => readable address e = true) pairs ->
  sol_pools_at_most address pairs m ->
  largest_pool_loop pairs address max_entry m = Return max_entry.
Proof.
  intros Hread Hlow.
  destruct (largest_pool_loop_spec address pairs Hread max_entry m)
    as (r & Hr & [[-> _] | (Hin & Hsr & fr & Hfr & Hgr & _)]); [exact Hr|].
  rewrite (Hlow r fr Hin Hsr Hfr) in Hgr. discriminate.
Qed.

(** Pairs that neither exceed nor equal [f] keep the running maximum
    strictly below [f]. *)
Lemma largest_pool_loop_below (address : string) (f : float) (before : list json) :
  Forall (fun e => readable address e = true) before ->
  (forall e f', In e before -> sol_pool address e = true ->
     pool_liquidity_usd e = Return f' ->
     float_gt f' f = false /\ float_eq f' f = false) ->
  forall (max_entry : json) (m : float), float_gt f m = true ->
  exists max_entry' m', float_gt f m' = true /\
    forall rest, largest_pool_loop (before ++ rest) address max_entry m =
                 largest_pool_loop rest address max_entry' m'.
Proof.
  induction 1 as [|e before He _ IH]; intros Hlow max_entry m Hm.
  - exists max_entry, m. split; [exact Hm|reflexivity].
  - destruct (readable_inv _ _ He) as [Hmatch Hl].
    assert (Hlow' : forall e' f', In e' before -> sol_pool address e' = true ->
              pool_liquidity_usd e' = Return f' ->
              float_gt f' f = false /\ float_eq f' f = false)
      by (intros; eapply Hlow; eauto; now right).
    destruct (sol_pool address e) eqn:Hs.
    + destruct (Hl eq_refl) as [fe Hfe].
      destruct (Hlow e fe (or_introl eq_refl) Hs Hfe) as [Hngt Hneq].
      destruct (float_gt fe m) eqn:Hgt.
      * assert (Hfe' : float_gt f fe = true)
          by (eapply float_gt_total; eauto).
        destruct (IH Hlow' e fe Hfe') as (me' & m' & Hm' & Heq).
        exists me', m'. split; [exact Hm'|]. intros rest.
        simpl. rewrite Hmatch. simpl. rewrite Hfe. simpl. rewrite Hgt. apply Heq.
      * destruct (IH Hlow' max_entry m Hm) as (me' & m' & Hm' & Heq).
        exists me', m'. split; [exact Hm'|]. intros rest.
        simpl. rewrite Hmatch. simpl. rewrite Hfe. simpl. rewrite Hgt. apply Heq.
    + destruct (IH Hlow' max_entry m Hm) as (me' & m' & Hm' & Heq).
      exists me', m'. split; [exact Hm'|]. intros rest.
      simpl. rewrite Hmatch. simpl. apply Heq.
Qed.

(** C4. Let [e] be a native-quoted pair whose liquidity [f] is above the
    initial maximum [-1] and is maximal: no native-quoted pair of the list
    has a greater one. If [e] is the first pair with that liquidity (no
    native-quoted pair before it has a liquidity equal to [f]), the selector
    returns [e], whatever pairs with the same liquidity follow it. *)
Theorem find_largest_pool_with_sol_first_wins (address : string)
    (before after : list json) (e : json) (f : float) :
  Forall (fun e' => readable address e' = true) (before ++ e :: after) ->
  sol_pool address e = true ->
  pool_liquidity_usd e = Return f ->
  float_gt f minus_one = true ->
  sol_pools_at_most address (before ++ e :: after) f ->
  (forall e' f', In e' before -> sol_pool address e' = true ->
     pool_liquidity_usd e' = Return f' -> float_eq f' f = false) ->
  find_largest_pool_with_sol (JList (before ++ e :: after)) address = Return e.
Proof.
  intros Hread Hs Hf Hgt Hmax Hfirst.
  apply Forall_app in Hread as [Hbefore Hrest].
  apply Forall_cons_iff in Hrest as [He Hafter].
  unfold find_largest_pool_with_sol. simpl.
  destruct (largest_pool_loop_below address f before Hbefore) with
    (max_entry := JDict []) (m := minus_one) as (me' & m' & Hm' & Heq).
  { intros e' f' Hin Hs' Hf'. split.
    - eapply Hmax; eauto. apply in_or_app. now left.
    - eapply Hfirst; eauto. }
  { exact Hgt. }
  rewrite Heq. simpl.
  destruct (readable_inv _ _ He) as [Hmatch _].
  rewrite Hmatch, Hs. simpl. rewrite Hf. simpl. rewrite Hm'.
  apply largest_pool_loop_keeps; [exact Hafter|].
  intros e' f' Hin Hs' Hf'. eapply Hmax; eauto.
  apply in_or_app. right. now right.
Qed.

End Selector.

Section SelectorExamples.
#[local] Existing Instance Fixture.config.
#[local] Existing Instance Fixture.runtime.
Import DexScreenerClient Fixture Market.


Example three_pairs_selected :
  find_largest_pool_with_sol (JList three_pairs) usdc
  = Return (pair usdc sol 9 "1.02").
Proof. reflexivity. Qed.

Ltac each_pair :=
  let e := fresh "e" in let f := fresh "f" in
  let Hin := fresh "Hin" in let Hs := fresh "Hs" in let Hf := fresh "Hf" in
  intros e f Hin Hs Hf; simpl in Hin;
  repeat (destruct Hin as [<-|Hin]); try contradiction;
  vm_compute in Hs; vm_compute in Hf; try discriminate;
  injection Hf as <-; reflexivity.

Lemma find_largest_pool_with_sol_maximal_witness :
  Forall (fun e => readable usdc e = true) three_pairs /\
  exists r, find_largest_pool_with_sol (JList three_pairs) usdc = Return r /\
    (r = JDict [] \/ (In r three_pairs /\ sol_pool usdc r = true)) /\
    ((forall e, In e three_pairs -> sol_pool usdc e = false) -> r = JDict []) /\
    (sol_pools_at_most usdc three_pairs minus_one -> r = JDict []) /\
    ((exists e f, In e three_pairs /\ sol_pool usdc e = true /\
        pool_liquidity_usd e = Return f /\ float_gt f minus_one = true) ->
     In r three_pairs /\ sol_pool usdc r = true /\
     exists fr, pool_liquidity_usd r = Return fr /\
       float_gt fr minus_one = true /\ sol_pools_at_most usdc three_pairs fr).
Proof.
  split; [repeat constructor|].
  apply find_largest_pool_with_sol_maximal. repeat constructor.
Defined.

(** C3, as stated, fails: the only pair of the list has [usdc] as base token
    and the native asset as quote token, so it maximizes the liquidity among
    the pairs meeting both conditions, and the selector returns the empty
    record instead, because [-5 > -1] is false. *)
Lemma find_largest_pool_with_sol_skips_low_liquidity :
  sol_pool usdc (pair usdc sol (-5) "1.01") = true /\
  pool_liquidity_usd (pair usdc sol (-5) "1.01") = Return (float_of_Z (-5)) /\
  find_largest_pool_with_sol (JList [pair usdc sol (-5) "1.01"]) usdc
  = Return (JDict []) /\
  ~ In (JDict []) [pair usdc sol (-5) "1.01"].
Proof.
  split; [reflexivity|]. split; [reflexivity|]. split; [reflexivity|].
  intros [Heq|[]]. discriminate Heq.
Qed.


Lemma find_largest_pool_with_sol_first_wins_witness :
  Forall (fun e' => readable usdc e' = true)
    ([pair usdc sol 5 "1.01"] ++ pair usdc sol 9 "1.02"
       :: [pair usdc usdt 100 "1.00"; pair usdc sol 9 "1.03"]) /\
  sol_pool usdc (pair usdc sol 9 "1.02") = true /\
  pool_liquidity_usd (pair usdc sol 9 "1.02") = Return (float_of_Z 9) /\
  float_gt (float_of_Z 9) minus_one = true /\
  sol_pools_at_most usdc tied_pairs (float_of_Z 9) /\
  (forall e' f', In e' [pair usdc sol 5 "1.01"] -> sol_pool usdc e' = true ->
     pool_liquidity_usd e' = Return f' -> float_eq f' (float_of_Z 9) = false) /\
  find_largest_pool_with_sol (JList tied_pairs) usdc
  = Return (pair usdc sol 9 "1.02").
Proof.
  assert (Hread : Forall (fun e' => readable usdc e' = true) tied_pairs)
    by repeat constructor.
  assert (Hmax : sol_pools_at_most usdc tied_pairs (float_of_Z 9)) by each_pair.
  assert (Hfirst : forall e' f', In e' [pair usdc sol 5 "1.01"] ->
            sol_pool usdc e' = true -> pool_liquidity_usd e' = Return f' ->
            float_eq f' (float_of_Z 9) = false) by each_pair.
  split; [exact Hread|]. do 3 (split; [reflexivity|]).
  split; [exact Hmax|]. split; [exact Hfirst|].
  exact (find_largest_pool_with_sol_first_wins usdc [pair usdc sol 5 "1.01"]
           [pair usdc usdt 100 "1.00"; pair usdc sol 9 "1.03"]
           (pair usdc sol 9 "1.02") (float_of_Z 9)
           Hread eq_refl eq_refl eq_refl Hmax Hfirst).
Defined.

End SelectorExamples.

(** ** The per-token client on the network *)


Section Dex.
Context {cfg : Config} {rt : PyRuntime} {net : Network}.
Import DexScreenerClient.


(** [_call_api], case by case. *)
Lemma _call_api_run (a : string) (log : list Request) :
  _call_api a log =
  if String.eqb a "" then (Raise NoPositionsError, log)
  else if is_solana_address a then
    if status_code (answer a) =? 200
    then (response_json (answer a), log ++ [request_for a])
    else (Raise UpstreamError, log ++ [request_for a])
  else (Raise (InvalidSolanaAddress a), log).
Proof.
  unfold _call_api, bind, lift, send, _validate_token_address,
    _validate_response, answer, UpstreamError.
  destruct (String.eqb a ""); [reflexivity|].
  destruct (is_solana_address a); [|reflexivity].
  destruct (status_code (upstream (request_for a)) =? 200); reflexivity.
Qed.

Lemma _call_api_ok (a : string) (v : json) (log : list Request) :
  valid_address a = true -> status_code (answer a) = 200 ->
  body (answer a) = Some v ->
  _call_api a log = (Return v, log ++ [request_for a]).
Proof.
  unfold valid_address. intros Hv Hs Hb. rewrite _call_api_run.
  apply andb_prop in Hv as [Hne Hsol].
  apply negb_true_iff in Hne. rewrite Hne, Hsol, Hs. simpl.
  unfold response_json. now rewrite Hb.
Qed.

(** C8. For a valid address whose 200 answer is a JSON object with no
    pairs (the list is empty, or absent), [fetch_token_overview] sends its
    one request and raises [TransactionNotFoundError], which is not an
    [InvalidTokens]. *)
Theorem fetch_token_overview_no_pairs (a : string) (v : json)
    (log : list Request) :
  valid_address a = true ->
  status_code (answer a) = 200 ->
  body (answer a) = Some v ->
  (exists p, Py.get v "pairs" JNull = Return p /\ Py.truthy p = false) ->
  fetch_token_overview a log
  = (Raise TransactionNotFoundError, log ++ [request_for a]) /\
  forall tokens, TransactionNotFoundError <> InvalidTokens tokens.
Proof.
  intros Hv Hs Hb (p & Hp & Hfalse). split; [|discriminate].
  unfold fetch_token_overview.
  pose proof Hv as Hv'. unfold valid_address in Hv'.
  apply andb_prop in Hv' as [_ ->].
  unfold bind. rewrite (_call_api_ok a v log Hv Hs Hb).
  unfold lift. rewrite Hp, Hfalse. reflexivity.
Qed.

Lemma completes_inv (a : string) :
  completes a = true ->
  valid_address a = true /\ status_code (answer a) = 200 /\
  exists v p, body (answer a) = Some v /\ Py.get v "pairs" JNull = Return p /\
    has_pairs a = Py.truthy p /\
    (Py.truthy p = true -> exists info, price_of_pairs v a = Return info).
Proof.
  unfold completes, has_pairs. intros Hc.
  apply andb_prop in Hc as [Hc Hbody]. apply andb_prop in Hc as [Hv Hs].
  split; [exact Hv|]. split; [now apply Z.eqb_eq|].
  destruct (body (answer a)) as [v|] eqn:Hb; [|discriminate].
  destruct (Py.get v "pairs" JNull) as [p|] eqn:Hp; [|discriminate].
  exists v, p. do 3 (split; [first [reflexivity | assumption]|]).
  intros Ht. rewrite Ht in Hbody.
  destruct (price_of_pairs v a) as [info|]; [eauto|discriminate].
Qed.

(** One turn of the loop for an address it gets through. *)
Lemma fetch_prices_loop_step (a : string) (rest : list string)
    (prices : gmap string PriceInfo) (invalid : list string)
    (log : list Request) (v p : json) :
  valid_address a = true -> status_code (answer a) = 200 ->
  body (answer a) = Some v -> Py.get v "pairs" JNull = Return p ->
  fetch_prices_loop (a :: rest) prices invalid log =
  if Py.truthy p then
    match price_of_pairs v a with
    | Return info =>
        fetch_prices_loop rest (<[a := info]> prices) invalid
          (log ++ [request_for a])
    | Raise e => (Raise e, log ++ [request_for a])
    end
  else fetch_prices_loop rest prices (invalid ++ [a]) (log ++ [request_for a]).
Proof.
  intros Hv Hs Hb Hp. simpl. unfold bind at 1.
  rewrite (_call_api_ok a v log Hv Hs Hb).
  unfold bind at 1, lift at 1. rewrite Hp.
  destruct (Py.truthy p); [|reflexivity].
  unfold bind, lift. destruct (price_of_pairs v a); reflexivity.
Qed.

(** The loop over addresses it gets through: one request per address, in
    order; every address without pairs rejected, in order; every address
    with pairs priced from its own answer. *)
Lemma fetch_prices_loop_completes (addresses : list string) :
  Forall (fun a => completes a = true) addresses ->
  forall (prices : gmap string PriceInfo) (invalid : list string)
    (log : list Request),
  exists prices',
    fetch_prices_loop addresses prices invalid log
    = (Return (prices', invalid ++ rejected addresses),
       log ++ map request_for addresses) /\
    (forall a, In a addresses -> has_pairs a = true ->
       exists v info, body (answer a) = Some v /\
         price_of_pairs v a = Return info /\ prices' !! a = Some info) /\
    (forall a, ~ (In a addresses /\ has_pairs a = true) ->
       prices' !! a = prices !! a).
Proof.
  induction 1 as [|a rest Ha _ IH]; intros prices invalid log.
  - exists prices. simpl. rewrite !app_nil_r. split; [reflexivity|].
    split; [intros ? []|reflexivity].
  - destruct (completes_inv a Ha) as (Hv & Hs & v & p & Hb & Hp & Hhas & Hprice).
    rewrite (fetch_prices_loop_step a rest prices invalid log v p Hv Hs Hb Hp).
    unfold rejected. simpl. fold (rejected rest). rewrite Hhas.
    destruct (Py.truthy p) eqn:Ht; simpl.
    + destruct (Hprice eq_refl) as [info Hinfo]. rewrite Hinfo.
      destruct (IH (<[a := info]> prices) invalid (log ++ [request_for a]))
        as (prices' & Hrun & Hin & Hout).
      exists prices'. rewrite Hrun, <- app_assoc. split; [reflexivity|].
      split.
      * intros a' [<-|Hin'] Hhas'.
        -- destruct (in_dec string_dec a rest) as [Hrest|Hrest].
           ++ now apply Hin.
           ++ exists v, info. split; [exact Hb|]. split; [exact Hinfo|].
              rewrite Hout by tauto. apply lookup_insert_eq.
        -- now apply Hin.
      * intros a' Hnot.
        rewrite Hout by tauto.
        apply lookup_insert_ne. intros <-. apply Hnot.
        split; [now left|]. now rewrite Hhas.
    + destruct (IH prices (invalid ++ [a]) (log ++ [request_for a]))
        as (prices' & Hrun & Hin & Hout).
      exists prices'. rewrite Hrun, <- !app_assoc. split; [reflexivity|].
      split.
      * intros a' [<-|Hin'] Hhas'; [congruence|now apply Hin].
      * intros a' Hnot. apply Hout. tauto.
Qed.

(** Whatever the answers, a loop that ends normally has sent one request
    per address and rejected exactly the addresses without pairs; a loop that
    is cut short raises something else than [InvalidTokens] with a list. *)
Lemma fetch_prices_loop_outcome (addresses : list string) :
  forall (prices : gmap string PriceInfo) (invalid : list string)
    (log log' : list Request) (r : result (gmap string PriceInfo * list string)),
  fetch_prices_loop addresses prices invalid log = (r, log') ->
  match r with
  | Return st =>
      log' = log ++ map request_for addresses /\
      snd st = invalid ++ rejected addresses
  | Raise e => forall tokens, e <> InvalidTokens (Some tokens)
  end.
Proof.
  induction addresses as [|a rest IH]; intros prices invalid log log' r Hrun.
  - injection Hrun as <- <-. simpl. now rewrite !app_nil_r.
  - simpl in Hrun. unfold bind at 1 in Hrun. rewrite _call_api_run in Hrun.
    destruct (String.eqb a ""); [injection Hrun as <- <-; discriminate|].
    destruct (is_solana_address a); [|injection Hrun as <- <-; discriminate].
    destruct (status_code (answer a) =? 200);
      [|injection Hrun as <- <-; discriminate].
    unfold response_json in Hrun.
    destruct (body (answer a)) as [v|] eqn:Hb;
      [|injection Hrun as <- <-; discriminate].
    unfold bind at 1, lift at 1 in Hrun.
    destruct (Py.get v "pairs" JNull) as [p|x] eqn:Hp.
    2:{ injection Hrun as <- <-. intros tokens ->.
        apply get_raises in Hp. discriminate. }
    assert (Hhas : has_pairs a = Py.truthy p)
      by (unfold has_pairs; now rewrite Hb, Hp).
    destruct (Py.truthy p) eqn:Ht.
    + unfold bind at 1, lift at 1 in Hrun.
      destruct (price_of_pairs v a) as [info|x] eqn:Hinfo.
      2:{ injection Hrun as <- <-. intros tokens ->.
          apply price_of_pairs_raises in Hinfo. discriminate. }
      specialize (IH _ _ _ _ _ Hrun). destruct r as [st|e]; [|exact IH].
      destruct IH as [-> ->]. unfold rejected. simpl. rewrite Hhas. simpl.
      now rewrite <- app_assoc.
    + specialize (IH _ _ _ _ _ Hrun). destruct r as [st|e]; [|exact IH].
      destruct IH as [-> ->]. unfold rejected. simpl. rewrite Hhas. simpl.
      now rewrite <- !app_assoc.
Qed.

(** C6 (as amended). When the loop gets through every address of a
    non-empty list (valid address, 200 answer, pairs that yield a price when
    there are some) and at least one address has no pairs,
    [fetch_prices_dex] has sent one request per address, in order, those
    after the first rejected address included, and only then raises
    [InvalidTokens] once, with every address without pairs, in input order.
    And in any run, an [InvalidTokens] that carries a list is raised after
    the request for the last address, with that complete list. *)
Theorem fetch_prices_dex_collects_all (addresses : list string)
    (log : list Request) :
  addresses <> [] ->
  Forall (fun a => completes a = true) addresses ->
  rejected addresses <> [] ->
  fetch_prices_dex addresses log
  = (Raise (InvalidTokens (Some (rejected addresses))),
     log ++ map request_for addresses) /\
  (forall a, In a (rejected addresses) <-> In a addresses /\ has_pairs a = false) /\
  (forall (others : list string) (tokens : list string) (log0 log1 : list Request),
     fetch_prices_dex others log0 = (Raise (InvalidTokens (Some tokens)), log1) ->
     log1 = log0 ++ map request_for others /\ tokens = rejected others).
Proof.
  intros Hne Hall Hrej. split; [|split].
  - destruct (fetch_prices_loop_completes addresses Hall ∅ [] log)
      as (prices' & Hrun & _).
    unfold fetch_prices_dex.
    destruct addresses as [|a rest]; [contradiction|].
    unfold bind. rewrite Hrun. simpl snd.
    destruct (rejected (a :: rest)) eqn:Hr; [contradiction|]. reflexivity.
  - intros a. unfold rejected. rewrite filter_In, negb_true_iff.
    reflexivity.
  - intros others tokens log0 log1 Hrun. unfold fetch_prices_dex in Hrun.
    destruct others as [|a rest]; [discriminate|].
    unfold bind in Hrun.
    destruct (fetch_prices_loop (a :: rest) ∅ [] log0) as [r log2] eqn:Hloop.
    apply fetch_prices_loop_outcome in Hloop.
    destruct r as [st|e].
    + destruct Hloop as [-> Hst]. rewrite app_nil_l in Hst.
      destruct (snd st) eqn:Hsnd; [discriminate|].
      unfold raise in Hrun. injection Hrun as <- <-.
      split; [reflexivity|exact Hst].
    + injection Hrun as -> <-. now destruct (Hloop tokens).
Qed.

(** C10. Take a valid address whose 200 answer lists pairs the selector can
    read, at least one, none of them with the address as base token and the
    native asset as quote token. The selector returns the empty record, and
    the loop does not reject the address: it maps it to
    [PriceInfo(Decimal(0), None)]. So, in a run that gets through every
    address of a list that contains it, the address is not in the rejection
    list and, when nothing is rejected, the mapping returned has that entry
    for it. *)
Theorem fetch_prices_dex_unquoted_address (a : string) (v : json)
    (pairs : list json) :
  valid_address a = true ->
  status_code (answer a) = 200 ->
  body (answer a) = Some v ->
  Py.get v "pairs" JNull = Return (JList pairs) ->
  pairs <> [] ->
  Forall (fun e => readable a e = true) pairs ->
  (forall e, In e pairs -> sol_pool a e = false) ->
  find_largest_pool_with_sol (JList pairs) a = Return (JDict []) /\
  (forall rest prices invalid log,
     fetch_prices_loop (a :: rest) prices invalid log
     = fetch_prices_loop rest
         (<[a := mkPriceInfo (Py.Decimal_of_Z 0) None]> prices) invalid
         (log ++ [request_for a])) /\
  (forall addresses log,
     In a addresses ->
     Forall (fun a' => completes a' = true) addresses ->
     ~ In a (rejected addresses) /\
     (rejected addresses = [] ->
      exists prices,
        fetch_prices_dex addresses log
        = (Return prices, log ++ map request_for addresses) /\
        prices !! a = Some (mkPriceInfo (Py.Decimal_of_Z 0) None))).
Proof.
  intros Hv Hs Hb Hp Hne Hread Hnone.
  assert (Hfind : find_largest_pool_with_sol (JList pairs) a = Return (JDict [])).
  { unfold find_largest_pool_with_sol. simpl.
    apply largest_pool_loop_keeps; [exact Hread|].
    intros e f Hin Hsol. rewrite (Hnone e Hin) in Hsol. discriminate. }
  assert (Hitem : Py.getitem v "pairs" = Return (JList pairs)).
  { destruct v; try discriminate. simpl in *.
    destruct (Py.lookup d "pairs"); congruence. }
  assert (Hinfo : price_of_pairs v a
                  = Return (mkPriceInfo (Py.Decimal_of_Z 0) None)).
  { unfold price_of_pairs. rewrite Hitem. simpl. now rewrite Hfind. }
  assert (Ht : Py.truthy (JList pairs) = true)
    by (destruct pairs; [contradiction|reflexivity]).
  assert (Hhas : has_pairs a = true)
    by (unfold has_pairs; now rewrite Hb, Hp).
  split; [exact Hfind|]. split.
  - intros rest prices invalid log.
    rewrite (fetch_prices_loop_step a rest prices invalid log v _ Hv Hs Hb Hp).
    now rewrite Ht, Hinfo.
  - intros addresses log Hin Hall. split.
    + unfold rejected. rewrite filter_In, Hhas. simpl. intros [_ Hf].
      discriminate.
    + intros Hrej.
      destruct (fetch_prices_loop_completes addresses Hall ∅ [] log)
        as (prices' & Hrun & Hpriced & _).
      exists prices'. split.
      * unfold fetch_prices_dex.
        destruct addresses as [|a0 rest]; [contradiction|].
        unfold bind. rewrite Hrun, Hrej. reflexivity.
      * destruct (Hpriced a Hin Hhas) as (v0 & info0 & Hb0 & Hinfo0 & Hlook).
        rewrite Hb in Hb0. injection Hb0 as <-.
        rewrite Hinfo in Hinfo0. injection Hinfo0 as <-. exact Hlook.
Qed.

End Dex.

(** ** The batch client on the network *)


Section Bird.
Context {cfg : Config} {rt : PyRuntime} {net : Network}.
Import BirdEyeClient.

Lemma _make_api_call_get (query_url : string) (log : list Request) :
  _make_api_call "GET" query_url log
  = (Return (upstream (mkRequest GET query_url _headers)),
     log ++ [mkRequest GET query_url _headers]).
Proof. reflexivity. Qed.

(** [fetch_token_overview], case by case, up to the reading of the
    payload. *)
Lemma fetch_token_overview_run (address : string) (log : list Request) :
  fetch_token_overview address log =
  if is_solana_address address then
    if status_code (upstream (overview_request address)) =? 200 then
      (let? payload := response_json (upstream (overview_request address)) in
       let? data := Py.getitem payload "data" in
       let? token_data := Py.get data address (JDict []) in
       if Py.truthy token_data then
         let? liquidity_raw := Py.get token_data "liquidity" JNull in
         if Py.truthy liquidity_raw then
           let? value_raw := Py.get token_data "value" (JInt 0) in
           let? price := Py.to_Decimal value_raw in
           let? liq := Py.to_Decimal liquidity_raw in
           Return (mkTokenOverview price (JInt 0) 0 0 liq (Int 0))
         else Raise (ValueError NO_LIQUDITY)
       else Raise (InvalidTokens (Some [address])),
       log ++ [overview_request address])
    else (Raise (InvalidTokens (Some [address])), log ++ [overview_request address])
  else (Raise (InvalidSolanaAddress address), log).
Proof.
  unfold fetch_token_overview.
  destruct (is_solana_address address); [|reflexivity].
  unfold bind. rewrite _make_api_call_get. fold (overview_request address).
  destruct (status_code (upstream (overview_request address)) =? 200);
    [|reflexivity].
  unfold lift. f_equal.
  destruct (response_json _) as [payload|]; [|reflexivity]. simpl.
  destruct (Py.getitem payload "data") as [data|]; [|reflexivity]. simpl.
  destruct (Py.get data address (JDict [])) as [token_data|]; [|reflexivity].
  simpl. destruct (Py.truthy token_data); [|reflexivity].
  destruct (Py.get token_data "liquidity" JNull) as [raw|]; [|reflexivity].
  simpl. destruct (Py.truthy raw); [|reflexivity].
  destruct (Py.get token_data "value" (JInt 0)) as [value_raw|]; reflexivity.
Qed.

(** C9. An overview the batch client returns has the int [0] as symbol,
    decimals, lastTradeUnixTime and supply; its price is the Decimal of the
    [value] of the upstream record of the address (of [0] when the record
    has none) and its liquidity the Decimal of the record's [liquidity]. *)
Theorem fetch_token_overview_zero_defaults (address : string)
    (log log' : list Request) (ov : TokenOverview) :
  fetch_token_overview address log = (Return ov, log') ->
  symbol ov = JInt 0 /\ decimals ov = 0 /\ lastTradeUnixTime ov = 0 /\
  supply ov = Int 0 /\
  exists payload data token_data value_raw liquidity_raw,
    body (upstream (overview_request address)) = Some payload /\
    Py.getitem payload "data" = Return data /\
    Py.get data address (JDict []) = Return token_data /\
    Py.get token_data "value" (JInt 0) = Return value_raw /\
    Py.to_Decimal value_raw = Return (price ov) /\
    Py.get token_data "liquidity" JNull = Return liquidity_raw /\
    Py.to_Decimal liquidity_raw = Return (liquidity ov).
Proof.
  rewrite fetch_token_overview_run. intros Hrun.
  destruct (is_solana_address address); [|discriminate].
  destruct (status_code _ =? 200); [|discriminate].
  injection Hrun as Hrun _. unfold response_json in Hrun.
  destruct (body (upstream (overview_request address))) as [payload|];
    [|discriminate].
  simpl in Hrun.
  destruct (Py.getitem payload "data") as [data|] eqn:Hdata; [|discriminate].
  simpl in Hrun.
  destruct (Py.get data address (JDict [])) as [token_data|] eqn:Htd;
    [|discriminate].
  simpl in Hrun. destruct (Py.truthy token_data); [|discriminate].
  destruct (Py.get token_data "liquidity" JNull) as [raw|] eqn:Hraw;
    [|discriminate].
  simpl in Hrun. destruct (Py.truthy raw); [|discriminate].
  destruct (Py.get token_data "value" (JInt 0)) as [value_raw|] eqn:Hval;
    [|discriminate].
  simpl in Hrun.
  destruct (Py.to_Decimal value_raw) as [p|] eqn:Hp; [|discriminate].
  simpl in Hrun.
  destruct (Py.to_Decimal raw) as [l|] eqn:Hl; [|discriminate].
  simpl in Hrun. injection Hrun as <-. simpl.
  do 4 (split; [reflexivity|]).
  exists payload, data, token_data, value_raw, raw. auto 10.
Qed.

End Bird.

(** ** Liquidity of an overview *)

Section Liquidity.
Context {cfg : Config} {rt : PyRuntime} {net : Network}.

Lemma pow2_ctz_le (m : positive) : (2 ^ Py.ctz m <= Npos m)%N.
Proof.
  induction m as [p IH|p IH|]; simpl Py.ctz.
  - change (2 ^ 0)%N with 1%N. lia.
  - rewrite N.pow_succ_r'. lia.
  - change (2 ^ 0)%N with 1%N. lia.
Qed.

Lemma Decimal_of_float_truthy (f : float) :
  Py.truthy (JFloat f) = true -> Py.Decimal_truthy (Py.Decimal_of_float f) = true.
Proof.
  destruct f as [s|s| |s m e]; simpl; try reflexivity; try discriminate.
  intros _. destruct (0 <=? e); simpl; [reflexivity|].
  apply negb_true_iff, N.eqb_neq.
  apply N.neq_mul_0. split; [|apply N.pow_nonzero; discriminate].
  rewrite N.shiftr_div_pow2. intros Hz.
  apply N.div_small_iff in Hz; [|apply N.pow_nonzero; discriminate].
  pose proof (pow2_ctz_le m) as Hle.
  assert (2 ^ N.min (Py.ctz m) (Z.to_N (- e)) <= 2 ^ Py.ctz m)%N
    by (apply N.pow_le_mono_r; [discriminate|apply N.le_min_l]).
  lia.
Qed.

(** A JSON number that is not zero converts to a Decimal that is not
    zero. *)
Lemma to_Decimal_number_truthy (raw : json) (d : Decimal) :
  is_number raw = true -> Py.truthy raw = true ->
  Py.to_Decimal raw = Return d -> Py.Decimal_truthy d = true.
Proof.
  destruct raw as [| |z|f| | |]; try discriminate; intros _ Ht Hd;
    injection Hd as <-.
  - simpl in *. apply negb_true_iff, N.eqb_neq.
    apply negb_true_iff, Z.eqb_neq in Ht. lia.
  - now apply Decimal_of_float_truthy.
Qed.

Lemma overview_of_pairs_liquidity (api_response : json) (address : string)
    (ov : TokenOverview) :
  DexScreenerClient.overview_of_pairs api_response address = Return ov ->
  Py.Decimal_truthy (liquidity ov) = true.
Proof.
  unfold DexScreenerClient.overview_of_pairs, rbind. intros H.
  repeat (match goal with
          | H : context [match ?x with _ => _ end] |- _ => destruct x eqn:?
          end; try discriminate).
  injection H as <-. simpl. assumption.
Qed.

(** X16. Per-token client: when the record the selector
    returns has no [liquidity], or a [liquidity.usd] whose Decimal is zero (a
    missing [usd] counts as 0), [fetch_token_overview] raises
    [ValueError(NO_LIQUDITY)]; and the liquidity of an overview it returns is
    never zero.
    Batch client: when the record of the address has no [liquidity], or a
    null, zero or otherwise false one, [fetch_token_overview] raises
    [ValueError(NO_LIQUDITY)]; an overview it returns comes from a record
    whose [liquidity] is present and not false, and its liquidity, when the
    upstream sent a JSON number, is never zero. *)
Theorem fetch_token_overview_no_liquidity :
  (forall (a : string) (v p final_data : json) (log : list Request),
     valid_address a = true ->
     status_code (answer a) = 200 ->
     body (answer a) = Some v ->
     Py.getitem v "pairs" = Return p -> Py.truthy p = true ->
     DexScreenerClient.find_largest_pool_with_sol p a = Return final_data ->
     (DexScreenerClient.selected_liquidity final_data = Return None \/
      exists d, DexScreenerClient.selected_liquidity final_data = Return (Some d) /\
                Py.Decimal_truthy d = false) ->
     DexScreenerClient.fetch_token_overview a log
     = (Raise (ValueError NO_LIQUDITY), log ++ [DexScreenerClient.request_for a])) /\
  (forall (a : string) (log log' : list Request) (ov : TokenOverview),
     DexScreenerClient.fetch_token_overview a log = (Return ov, log') ->
     Py.Decimal_truthy (liquidity ov) = true) /\
  (forall (a : string) (payload data token_data raw : json) (log : list Request),
     is_solana_address a = true ->
     status_code (upstream (overview_request a)) = 200 ->
     body (upstream (overview_request a)) = Some payload ->
     Py.getitem payload "data" = Return data ->
     Py.get data a (JDict []) = Return token_data ->
     Py.truthy token_data = true ->
     Py.get token_data "liquidity" JNull = Return raw ->
     Py.truthy raw = false ->
     BirdEyeClient.fetch_token_overview a log
     = (Raise (ValueError NO_LIQUDITY), log ++ [overview_request a])) /\
  (forall (a : string) (log log' : list Request) (ov : TokenOverview),
     BirdEyeClient.fetch_token_overview a log = (Return ov, log') ->
     exists payload data token_data raw,
       body (upstream (overview_request a)) = Some payload /\
       Py.getitem payload "data" = Return data /\
       Py.get data a (JDict []) = Return token_data /\
       Py.get token_data "liquidity" JNull = Return raw /\
       Py.truthy raw = true /\
       Py.to_Decimal raw = Return (liquidity ov) /\
       (is_number raw = true -> Py.Decimal_truthy (liquidity ov) = true)).
Proof.
  split; [|split; [|split]].
  - intros a v p final_data log Hv Hs Hb Hitem Ht Hfd Hliq.
    unfold DexScreenerClient.fetch_token_overview.
    pose proof Hv as Hv'. unfold valid_address in Hv'.
    apply andb_prop in Hv' as [_ ->].
    unfold bind. rewrite (_call_api_ok a v log Hv Hs Hb).
    assert (Hget : Py.get v "pairs" JNull = Return p).
    { destruct v; try discriminate. simpl in *.
      destruct (Py.lookup d "pairs"); congruence. }
    unfold lift. rewrite Hget, Ht. f_equal.
    unfold DexScreenerClient.overview_of_pairs. rewrite Hitem. simpl.
    rewrite Hfd. simpl.
    destruct Hliq as [-> | (d & -> & Hd)]; simpl; [reflexivity|].
    now rewrite Hd.
  - intros a log log' ov Hrun.
    unfold DexScreenerClient.fetch_token_overview in Hrun.
    destruct (is_solana_address a); [|discriminate].
    unfold bind in Hrun.
    destruct (DexScreenerClient._call_api a log) as [[v|x] log1];
      [|discriminate].
    unfold lift in Hrun.
    destruct (Py.get v "pairs" JNull) as [p|]; [|discriminate].
    destruct (Py.truthy p); [|discriminate].
    injection Hrun as Hrun _.
    eapply overview_of_pairs_liquidity; eauto.
  - intros a payload data token_data raw log Hsol Hs Hb Hdata Htd Ht Hraw Hfalse.
    rewrite fetch_token_overview_run, Hsol, Hs. simpl.
    unfold response_json. rewrite Hb. simpl. rewrite Hdata. simpl.
    rewrite Htd. simpl. rewrite Ht, Hraw. simpl. now rewrite Hfalse.
  - intros a log log' ov Hrun.
    rewrite fetch_token_overview_run in Hrun.
    destruct (is_solana_address a); [|discriminate].
    destruct (status_code _ =? 200); [|discriminate].
    injection Hrun as Hrun _. unfold response_json in Hrun.
    destruct (body (upstream (overview_request a))) as [payload|];
      [|discriminate].
    simpl in Hrun.
    destruct (Py.getitem payload "data") as [data|] eqn:Hdata; [|discriminate].
    simpl in Hrun.
    destruct (Py.get data a (JDict [])) as [token_data|] eqn:Htd;
      [|discriminate].
    simpl in Hrun. destruct (Py.truthy token_data); [|discriminate].
    destruct (Py.get token_data "liquidity" JNull) as [raw|] eqn:Hraw;
      [|discriminate].
    simpl in Hrun. destruct (Py.truthy raw) eqn:Ht; [|discriminate].
    destruct (Py.get token_data "value" (JInt 0)) as [value_raw|];
      [|discriminate].
    simpl in Hrun.
    destruct (Py.to_Decimal value_raw) as [pr|]; [|discriminate].
    simpl in Hrun.
    destruct (Py.to_Decimal raw) as [l|] eqn:Hl; [|discriminate].
    simpl in Hrun. injection Hrun as <-. simpl.
    exists payload, data, token_data, raw.
    do 6 (split; [first [reflexivity | assumption]|]).
    intros Hnum. eapply to_Decimal_number_truthy; eauto.
Qed.

End Liquidity.

(** ** Validation and upstream failures *)

Section Failures.
Context {cfg : Config} {rt : PyRuntime} {net : Network}.

Lemma fetch_prices_dex_nonempty (addresses : list string) (log : list Request) :
  addresses <> [] ->
  DexScreenerClient.fetch_prices_dex addresses log =
  match DexScreenerClient.fetch_prices_loop addresses ∅ [] log with
  | (Return st, log') =>
      match snd st with
      | [] => (Return (fst st), log')
      | invalid => (Raise (InvalidTokens (Some invalid)), log')
      end
  | (Raise e, log') => (Raise e, log')
  end.
Proof.
  intros Hne. destruct addresses as [|a rest]; [contradiction|].
  unfold DexScreenerClient.fetch_prices_dex, bind.
  destruct (DexScreenerClient.fetch_prices_loop (a :: rest) ∅ [] log)
    as [[st|e] log']; [|reflexivity].
  destruct (snd st); reflexivity.
Qed.

(** The loop over a prefix it gets through, then the rest. *)
Lemma fetch_prices_loop_app (before : list string) :
  Forall (fun a => completes a = true) before ->
  forall (rest : list string) (prices : gmap string PriceInfo)
    (invalid : list string) (log : list Request),
  exists prices',
    DexScreenerClient.fetch_prices_loop (before ++ rest) prices invalid log
    = DexScreenerClient.fetch_prices_loop rest prices'
        (invalid ++ rejected before)
        (log ++ map DexScreenerClient.request_for before).
Proof.
  induction 1 as [|a before Ha _ IH]; intros rest prices invalid log.
  - exists prices. simpl. now rewrite !app_nil_r.
  - destruct (completes_inv a Ha) as (Hv & Hs & v & p & Hb & Hp & Hhas & Hprice).
    rewrite <- app_comm_cons.
    rewrite (fetch_prices_loop_step a _ prices invalid log v p Hv Hs Hb Hp).
    unfold rejected. simpl. fold (rejected before). rewrite Hhas.
    destruct (Py.truthy p) eqn:Ht; simpl.
    + destruct (Hprice eq_refl) as [info ->].
      destruct (IH rest (<[a := info]> prices) invalid
                  (log ++ [DexScreenerClient.request_for a])) as [prices' ->].
      exists prices'. now rewrite <- app_assoc.
    + destruct (IH rest prices (invalid ++ [a])
                  (log ++ [DexScreenerClient.request_for a])) as [prices' ->].
      exists prices'. now rewrite <- !app_assoc.
Qed.

(** [fetch_prices_dex] stops at the first address whose call raises: the
    requests for the addresses before it have been sent, none for the
    addresses after it. *)
Lemma fetch_prices_dex_stops (before after : list string) (a : string)
    (e : exn) (sent : list Request) (log : list Request) :
  Forall (fun a' => completes a' = true) before ->
  (forall log0, DexScreenerClient._call_api a log0 = (Raise e, log0 ++ sent)) ->
  DexScreenerClient.fetch_prices_dex (before ++ a :: after) log
  = (Raise e, log ++ map DexScreenerClient.request_for before ++ sent).
Proof.
  intros Hbefore Hcall.
  rewrite fetch_prices_dex_nonempty by (now destruct before).
  destruct (fetch_prices_loop_app before Hbefore (a :: after) ∅ [] log)
    as [prices' ->].
  simpl. unfold bind at 1. rewrite Hcall. now rewrite <- app_assoc.
Qed.

Lemma price_details_loop_raises (items : list (string * json)) :
  forall (price_details : gmap string PriceInfo) (invalid : list string) (e : exn),
  BirdEyeClient.price_details_loop items price_details invalid = Raise e ->
  builtin e = true.
Proof.
  induction items as [|[address details] rest IH];
    intros price_details invalid e H; simpl in H.
  - discriminate.
  - raised H; [eauto using contains_raises|].
    raised H.
    { destruct x; [eauto using contains_raises|discriminate]. }
    destruct x0; [|eauto].
    raised H; [eauto using getitem_raises|].
    raised H; [eauto using to_Decimal_raises|].
    raised H; [eauto using getitem_raises|].
    raised H; [eauto using to_Decimal_raises|]. eauto.
Qed.

(** The batch [fetch_prices] on a non-empty list: one request, whatever the
    addresses are, then the status decides. *)
Lemma fetch_prices_run (addresses : list string) (log : list Request) :
  addresses <> [] ->
  BirdEyeClient.fetch_prices addresses log =
  (if status_code (upstream (prices_request addresses)) =? 200 then
     let? payload := response_json (upstream (prices_request addresses)) in
     let? data := Py.get payload "data" (JDict []) in
     let? items := Py.items data in
     let? st := BirdEyeClient.price_details_loop items ∅ [] in
     match snd st with
     | [] => Return (fst st)
     | invalid => Raise (InvalidTokens (Some invalid))
     end
   else Raise UpstreamError,
   log ++ [prices_request addresses]).
Proof.
  intros Hne. destruct addresses as [|a rest]; [contradiction|].
  unfold BirdEyeClient.fetch_prices, bind. rewrite _make_api_call_get.
  fold (prices_request (a :: rest)).
  destruct (status_code (upstream (prices_request (a :: rest))) =? 200);
    reflexivity.
Qed.

Lemma items_raises (v : json) (e : exn) :
  Py.items v = Raise e -> builtin e = true.
Proof. unfold Py.items. intros; by_cases. Qed.

Lemma fetch_prices_never_checks (addresses : list string) (log : list Request) :
  addresses <> [] ->
  exists r, BirdEyeClient.fetch_prices addresses log
            = (r, log ++ [prices_request addresses]) /\
    forall a, r <> Raise (InvalidSolanaAddress a).
Proof.
  intros Hne. rewrite (fetch_prices_run addresses log Hne).
  eexists. split; [reflexivity|]. intros a H.
  destruct (status_code _ =? 200); [|discriminate].
  raised H.
  { unfold response_json in H. destruct (body _); discriminate. }
  raised H; [apply get_raises in H; discriminate|].
  raised H; [apply items_raises in H; discriminate|].
  raised H; [apply price_details_loop_raises in H; discriminate|].
  destruct (snd x2); discriminate.
Qed.

(** A loop that rejects nothing has added exactly the keys of the items. *)
Lemma price_details_loop_keys (items : list (string * json)) :
  forall (price_details : gmap string PriceInfo) (invalid : list string)
    (st : gmap string PriceInfo * list string),
  BirdEyeClient.price_details_loop items price_details invalid = Return st ->
  exists extra, snd st = invalid ++ extra /\
    (extra = [] ->
     dom (fst st) = dom price_details ∪ list_to_set (map fst items)).
Proof.
  induction items as [|[address details] rest IH];
    intros price_details invalid st H; simpl in H.
  - injection H as <-. exists []. simpl. split; [now rewrite app_nil_r|].
    intros _. now rewrite (right_id_L ∅ (∪)).
  - returned H as has_value Hvalue. returned H as has_both Hboth.
    destruct has_both.
    + returned H as value_raw Hraw. returned H as value Hdec.
      returned H as liquidity_raw Hlraw. returned H as liq Hldec.
      destruct (IH _ _ _ H) as (extra & Hsnd & Hdom).
      exists extra. split; [exact Hsnd|]. intros Hnil.
      rewrite (Hdom Hnil), dom_insert_L. simpl.
      rewrite (comm_L (∪) {[address]} (dom price_details)).
      now rewrite (assoc_L (∪)).
    + destruct (IH _ _ _ H) as (extra & Hsnd & _).
      exists (address :: extra). split.
      * rewrite Hsnd, <- app_assoc. reflexivity.
      * discriminate.
Qed.

(** X15. The keys of a mapping the batch [fetch_prices] returns are the keys
    of the [data] of the answer, whatever addresses were asked for. *)
Lemma fetch_prices_keys (addresses : list string) (log log' : list Request)
    (prices : gmap string PriceInfo) :
  BirdEyeClient.fetch_prices addresses log = (Return prices, log') ->
  exists payload data items,
    body (upstream (prices_request addresses)) = Some payload /\
    Py.get payload "data" (JDict []) = Return data /\
    Py.items data = Return items /\
    dom prices = list_to_set (map fst items).
Proof.
  intros Hrun. destruct addresses as [|a rest]; [discriminate|].
  rewrite fetch_prices_run in Hrun by discriminate.
  destruct (status_code _ =? 200); [|discriminate].
  injection Hrun as Hrun _.
  unfold response_json in Hrun.
  destruct (body (upstream (prices_request (a :: rest)))) as [payload|];
    [|discriminate].
  simpl in Hrun. returned Hrun as data Hdata. returned Hrun as items Hitems.
  returned Hrun as st Hloop.
  destruct (price_details_loop_keys _ _ _ _ Hloop) as (extra & Hsnd & Hdom).
  rewrite app_nil_l in Hsnd. rewrite Hsnd in Hrun.
  destruct extra; [|discriminate]. injection Hrun as <-.
  exists payload, data, items. do 3 (split; [first [reflexivity|assumption]|]).
  now rewrite (Hdom eq_refl), dom_empty_L, (left_id_L ∅ (∪)).
Qed.

End Failures.

Section FailureTheorems.
Context {cfg : Config} {rt : PyRuntime} {net : Network}.

(** C5 (as amended). When the upstream answers with a status other than
    200, the batch [fetch_prices], the per-token [fetch_prices_dex] (at the
    first address so answered, the addresses before it having got through)
    and the per-token [fetch_token_overview] raise [InvalidTokens()] with no
    token list, the specification's UpstreamError; the batch
    [fetch_token_overview] raises [InvalidTokens] with the address as its
    list. *)
Theorem non_200_status_raises :
  (forall (addresses : list string) (log : list Request),
     addresses <> [] ->
     status_code (upstream (prices_request addresses)) <> 200 ->
     BirdEyeClient.fetch_prices addresses log
     = (Raise UpstreamError, log ++ [prices_request addresses])) /\
  (forall (before after : list string) (a : string) (log : list Request),
     Forall (fun a' => completes a' = true) before ->
     valid_address a = true ->
     status_code (answer a) <> 200 ->
     DexScreenerClient.fetch_prices_dex (before ++ a :: after) log
     = (Raise UpstreamError,
        log ++ map DexScreenerClient.request_for before
            ++ [DexScreenerClient.request_for a])) /\
  (forall (a : string) (log : list Request),
     valid_address a = true ->
     status_code (answer a) <> 200 ->
     DexScreenerClient.fetch_token_overview a log
     = (Raise UpstreamError, log ++ [DexScreenerClient.request_for a])) /\
  (forall (a : string) (log : list Request),
     is_solana_address a = true ->
     status_code (upstream (overview_request a)) <> 200 ->
     BirdEyeClient.fetch_token_overview a log
     = (Raise (InvalidTokens (Some [a])), log ++ [overview_request a])).
Proof.
  assert (Hcall : forall a log, valid_address a = true ->
            status_code (answer a) <> 200 ->
            DexScreenerClient._call_api a log
            = (Raise UpstreamError, log ++ [DexScreenerClient.request_for a])).
  { intros a log Hv Hs. rewrite _call_api_run.
    unfold valid_address in Hv. apply andb_prop in Hv as [Hne Hsol].
    apply negb_true_iff in Hne. rewrite Hne, Hsol.
    apply Z.eqb_neq in Hs. now rewrite Hs. }
  split; [|split; [|split]].
  - intros addresses log Hne Hs. rewrite (fetch_prices_run addresses log Hne).
    apply Z.eqb_neq in Hs. now rewrite Hs.
  - intros before after a log Hbefore Hv Hs.
    apply fetch_prices_dex_stops; [exact Hbefore|].
    intros log0. now apply Hcall.
  - intros a log Hv Hs. unfold DexScreenerClient.fetch_token_overview.
    pose proof Hv as Hv'. unfold valid_address in Hv'.
    apply andb_prop in Hv' as [_ ->].
    unfold bind. now rewrite Hcall.
  - intros a log Hsol Hs. rewrite fetch_token_overview_run, Hsol.
    apply Z.eqb_neq in Hs. now rewrite Hs.
Qed.

(** C2 (as amended). Both [fetch_prices] and [fetch_prices_dex] raise
    [NoPositionsError] on an empty list, with no request sent. Both
    [fetch_token_overview] raise [InvalidSolanaAddress] with the address when
    the predicate rejects it, with no request sent. [fetch_prices_dex] checks
    each address just before its own request: at the first address that is
    empty it raises [NoPositionsError], at the first non-empty address the
    predicate rejects it raises [InvalidSolanaAddress] with that address, in
    both cases after the requests for the addresses before it and with none
    for it or for those after it. The batch [fetch_prices] does not consult
    the predicate: on a non-empty list it sends its request and never raises
    [InvalidSolanaAddress]. *)
Theorem validation_gate :
  (forall log, BirdEyeClient.fetch_prices [] log = (Raise NoPositionsError, log)) /\
  (forall log,
     DexScreenerClient.fetch_prices_dex [] log = (Raise NoPositionsError, log)) /\
  (forall (a : string) (log : list Request),
     is_solana_address a = false ->
     BirdEyeClient.fetch_token_overview a log
     = (Raise (InvalidSolanaAddress a), log)) /\
  (forall (a : string) (log : list Request),
     is_solana_address a = false ->
     DexScreenerClient.fetch_token_overview a log
     = (Raise (InvalidSolanaAddress a), log)) /\
  (forall (before after : list string) (a : string) (log : list Request),
     Forall (fun a' => completes a' = true) before ->
     a <> "" -> is_solana_address a = false ->
     DexScreenerClient.fetch_prices_dex (before ++ a :: after) log
     = (Raise (InvalidSolanaAddress a),
        log ++ map DexScreenerClient.request_for before)) /\
  (forall (before after : list string) (log : list Request),
     Forall (fun a' => completes a' = true) before ->
     DexScreenerClient.fetch_prices_dex (before ++ "" :: after) log
     = (Raise NoPositionsError,
        log ++ map DexScreenerClient.request_for before)) /\
  (forall (addresses : list string) (log : list Request),
     addresses <> [] ->
     exists r, BirdEyeClient.fetch_prices addresses log
               = (r, log ++ [prices_request addresses]) /\
       forall a, r <> Raise (InvalidSolanaAddress a)).
Proof.
  split; [reflexivity|]. split; [reflexivity|].
  split; [|split; [|split; [|split]]].
  - intros a log Hsol. now rewrite fetch_token_overview_run, Hsol.
  - intros a log Hsol. unfold DexScreenerClient.fetch_token_overview.
    now rewrite Hsol.
  - intros before after a log Hbefore Hne Hsol.
    rewrite <- (app_nil_r (map _ before)).
    apply fetch_prices_dex_stops; [exact Hbefore|].
    intros log0. rewrite _call_api_run, app_nil_r.
    apply String.eqb_neq in Hne. now rewrite Hne, Hsol.
  - intros before after log Hbefore.
    rewrite <- (app_nil_r (map _ before)).
    apply fetch_prices_dex_stops; [exact Hbefore|].
    intros log0. now rewrite _call_api_run, app_nil_r.
  - apply fetch_prices_never_checks.
Qed.

End FailureTheorems.


(** ** The clients on the example upstream *)

Section Examples.
#[local] Existing Instance Fixture.config.
#[local] Existing Instance Fixture.runtime.
#[local] Existing Instance Market.network.
Import Fixture Market.

Ltac not_200 :=
  let H := fresh "H" in intros H; vm_compute in H; discriminate H.

(** C1, failing input. Asked for [usdc] and [bonk], the batch upstream
    answers 200 with a record for [usdc] only. [fetch_prices] goes through
    the records of the answer, not through the addresses it was given: it
    returns a mapping with the single key [usdc], and [bonk] is reported
    nowhere. *)
Theorem fetch_prices_drops_unpriced_address :
  BirdEyeClient.fetch_prices [usdc; bonk] []
  = (Return {[ usdc := mkPriceInfo (DFinite false 1 0)
                         (Some (DFinite false 52000000 0)) ]},
     [prices_request [usdc; bonk]]) /\
  dom ({[ usdc := mkPriceInfo (DFinite false 1 0)
                    (Some (DFinite false 52000000 0)) ]}
       : gmap string PriceInfo)
  <> list_to_set [usdc; bonk].
Proof.
  split; [vm_compute; reflexivity|].
  intros Hdom.
  assert (Hin : bonk ∈ (list_to_set [usdc; bonk] : gset string)) by set_solver.
  rewrite <- Hdom, dom_singleton_L in Hin.
  apply elem_of_singleton in Hin. discriminate Hin.
Qed.

(** C2, as stated, fails. The predicate rejects ["bad"], and the batch
    [fetch_prices] sends its request all the same and fails on the 503 it
    gets; [fetch_prices_dex] has already sent the request for [usdc] when it
    rejects ["bad"]; and it reports the empty string, which the predicate
    rejects too, as [NoPositionsError]. *)
Lemma batch_prices_skip_validation :
  is_solana_address "bad" = false /\
  BirdEyeClient.fetch_prices ["bad"] []
  = (Raise UpstreamError, [prices_request ["bad"]]) /\
  DexScreenerClient.fetch_prices_dex [usdc; "bad"] []
  = (Raise (InvalidSolanaAddress "bad"), [DexScreenerClient.request_for usdc]) /\
  is_solana_address "" = false /\
  DexScreenerClient.fetch_prices_dex [""] [] = (Raise NoPositionsError, []).
Proof. repeat split; vm_compute; reflexivity. Qed.

Lemma validation_gate_witness :
  (is_solana_address "bad" = false /\
   BirdEyeClient.fetch_token_overview "bad" []
   = (Raise (InvalidSolanaAddress "bad"), [])) /\
  (is_solana_address "bad" = false /\
   DexScreenerClient.fetch_token_overview "bad" []
   = (Raise (InvalidSolanaAddress "bad"), [])) /\
  (Forall (fun a' => completes a' = true) [usdc; bonk] /\
   "bad" <> "" /\ is_solana_address "bad" = false /\
   DexScreenerClient.fetch_prices_dex ([usdc; bonk] ++ "bad" :: [usdt]) []
   = (Raise (InvalidSolanaAddress "bad"),
      [] ++ map DexScreenerClient.request_for [usdc; bonk])) /\
  (Forall (fun a' => completes a' = true) [usdc] /\
   DexScreenerClient.fetch_prices_dex ([usdc] ++ "" :: [usdt]) []
   = (Raise NoPositionsError, [] ++ map DexScreenerClient.request_for [usdc])) /\
  ([usdc; "bad"] <> [] /\
   exists r, BirdEyeClient.fetch_prices [usdc; "bad"] []
             = (r, [] ++ [prices_request [usdc; "bad"]]) /\
     forall a, r <> Raise (InvalidSolanaAddress a)).
Proof.
  destruct validation_gate as (_ & _ & Hb & Hd & Hloop & Hempty & Hbatch).
  split; [split; [reflexivity|apply Hb; reflexivity]|].
  split; [split; [reflexivity|apply Hd; reflexivity]|].
  split.
  { split; [repeat constructor|]. split; [discriminate|].
    split; [reflexivity|].
    apply Hloop; [repeat constructor|discriminate|reflexivity]. }
  split.
  { split; [repeat constructor|]. apply Hempty. repeat constructor. }
  split; [discriminate|]. apply Hbatch. discriminate.
Defined.

(** C5, as stated, fails: on a 503 the batch [fetch_token_overview] raises
    [InvalidTokens] carrying the address, not the bare [InvalidTokens()]. *)
Lemma non_200_overview_carries_address :
  status_code (upstream (overview_request wif)) = 503 /\
  BirdEyeClient.fetch_token_overview wif []
  = (Raise (InvalidTokens (Some [wif])), [overview_request wif]) /\
  InvalidTokens (Some [wif]) <> UpstreamError.
Proof. split; [reflexivity|]. split; [reflexivity|discriminate]. Qed.

Lemma non_200_status_raises_witness :
  ([wif] <> [] /\
   status_code (upstream (prices_request [wif])) <> 200 /\
   BirdEyeClient.fetch_prices [wif] []
   = (Raise UpstreamError, [] ++ [prices_request [wif]])) /\
  (Forall (fun a' => completes a' = true) [usdc; bonk] /\
   valid_address wif = true /\ status_code (answer wif) <> 200 /\
   DexScreenerClient.fetch_prices_dex ([usdc; bonk] ++ wif :: [usdt]) []
   = (Raise UpstreamError,
      [] ++ map DexScreenerClient.request_for [usdc; bonk]
         ++ [DexScreenerClient.request_for wif])) /\
  (valid_address wif = true /\ status_code (answer wif) <> 200 /\
   DexScreenerClient.fetch_token_overview wif []
   = (Raise UpstreamError, [] ++ [DexScreenerClient.request_for wif])) /\
  (is_solana_address wif = true /\
   status_code (upstream (overview_request wif)) <> 200 /\
   BirdEyeClient.fetch_token_overview wif []
   = (Raise (InvalidTokens (Some [wif])), [] ++ [overview_request wif])).
Proof.
  destruct non_200_status_raises as (Hbatch & Hloop & Hdex & Hbird).
  split.
  { split; [discriminate|]. split; [not_200|].
    apply Hbatch; [discriminate|not_200]. }
  split.
  { split; [repeat constructor|]. split; [reflexivity|]. split; [not_200|].
    apply Hloop; [repeat constructor|reflexivity|not_200]. }
  split.
  { split; [reflexivity|]. split; [not_200|].
    apply Hdex; [reflexivity|not_200]. }
  split; [reflexivity|]. split; [not_200|].
  apply Hbird; [reflexivity|not_200].
Defined.

(** C6, as stated, fails: [bonk] has no pairs and is collected, then the
    503 for [wif] ends the loop at once with the bare [InvalidTokens()];
    [usdc] is never requested and [bonk] is reported nowhere. An address
    that fails validation ends the loop in the same way. *)
Lemma dex_prices_fail_fast_on_503 :
  has_pairs bonk = false /\
  status_code (answer wif) = 503 /\
  DexScreenerClient.fetch_prices_dex [bonk; wif; usdc] []
  = (Raise (InvalidTokens None),
     [DexScreenerClient.request_for bonk; DexScreenerClient.request_for wif]) /\
  DexScreenerClient.fetch_prices_dex [bonk; "bad"; usdc] []
  = (Raise (InvalidSolanaAddress "bad"), [DexScreenerClient.request_for bonk]).
Proof. repeat split; vm_compute; reflexivity. Qed.

Lemma fetch_prices_dex_collects_all_witness :
  [bonk; usdc; jup] <> [] /\
  Forall (fun a => completes a = true) [bonk; usdc; jup] /\
  rejected [bonk; usdc; jup] <> [] /\
  DexScreenerClient.fetch_prices_dex [bonk; usdc; jup] []
  = (Raise (InvalidTokens (Some [bonk; jup])),
     map DexScreenerClient.request_for [bonk; usdc; jup]).
Proof.
  split; [discriminate|]. split; [repeat constructor|].
  split; [vm_compute; discriminate|].
  exact (proj1 (fetch_prices_dex_collects_all [bonk; usdc; jup] []
                  ltac:(discriminate) ltac:(repeat constructor)
                  ltac:(vm_compute; discriminate))).
Defined.

Lemma fetch_token_overview_no_pairs_witness :
  valid_address bonk = true /\
  status_code (answer bonk) = 200 /\
  body (answer bonk) = Some (JDict [("pairs", JList [])]) /\
  (exists p, Py.get (JDict [("pairs", JList [])]) "pairs" JNull = Return p /\
             Py.truthy p = false) /\
  DexScreenerClient.fetch_token_overview bonk []
  = (Raise TransactionNotFoundError, [] ++ [DexScreenerClient.request_for bonk]) /\
  forall tokens, TransactionNotFoundError <> InvalidTokens tokens.
Proof.
  do 3 (split; [reflexivity|]).
  split; [exists (JList []); split; reflexivity|].
  apply (fetch_token_overview_no_pairs bonk (JDict [("pairs", JList [])]) []);
    try reflexivity.
  exists (JList []). split; reflexivity.
Defined.


Lemma fetch_token_overview_zero_defaults_witness :
  BirdEyeClient.fetch_token_overview usdc []
  = (Return usdc_overview, [overview_request usdc]) /\
  symbol usdc_overview = JInt 0 /\ decimals usdc_overview = 0 /\
  lastTradeUnixTime usdc_overview = 0 /\ supply usdc_overview = Int 0 /\
  exists payload data token_data value_raw liquidity_raw,
    body (upstream (overview_request usdc)) = Some payload /\
    Py.getitem payload "data" = Return data /\
    Py.get data usdc (JDict []) = Return token_data /\
    Py.get token_data "value" (JInt 0) = Return value_raw /\
    Py.to_Decimal value_raw = Return (price usdc_overview) /\
    Py.get token_data "liquidity" JNull = Return liquidity_raw /\
    Py.to_Decimal liquidity_raw = Return (liquidity usdc_overview).
Proof.
  split; [reflexivity|].
  apply (fetch_token_overview_zero_defaults usdc [] [overview_request usdc]
           usdc_overview).
  reflexivity.
Defined.

Lemma fetch_prices_dex_unquoted_address_witness :
  valid_address usdt = true /\
  status_code (answer usdt) = 200 /\
  body (answer usdt) = Some (JDict [("pairs", JList [pair usdt usdc 100 "1.00"])]) /\
  [pair usdt usdc 100 "1.00"] <> [] /\
  Forall (fun e => readable usdt e = true) [pair usdt usdc 100 "1.00"] /\
  (forall e, In e [pair usdt usdc 100 "1.00"] -> sol_pool usdt e = false) /\
  In usdt [usdc; usdt] /\
  Forall (fun a' => completes a' = true) [usdc; usdt] /\
  rejected [usdc; usdt] = [] /\
  exists prices,
    DexScreenerClient.fetch_prices_dex [usdc; usdt] []
    = (Return prices, [] ++ map DexScreenerClient.request_for [usdc; usdt]) /\
    prices !! usdt = Some (mkPriceInfo (Py.Decimal_of_Z 0) None).
Proof.
  assert (Hnone : forall e, In e [pair usdt usdc 100 "1.00"] ->
                    sol_pool usdt e = false)
    by (intros e [<-|[]]; reflexivity).
  do 3 (split; [reflexivity|]). split; [discriminate|].
  split; [repeat constructor|]. split; [exact Hnone|].
  split; [right; now left|]. split; [repeat constructor|].
  split; [reflexivity|].
  destruct (fetch_prices_dex_unquoted_address usdt
              (JDict [("pairs", JList [pair usdt usdc 100 "1.00"])])
              [pair usdt usdc 100 "1.00"])
    as (_ & _ & Hrun); try reflexivity; try exact Hnone.
  - discriminate.
  - repeat constructor.
  - destruct (Hrun [usdc; usdt] []) as [_ Hmap].
    + right; now left.
    + repeat constructor.
    + apply Hmap. reflexivity.
Defined.

(** C7, failing input. The batch upstream reports the liquidity of [jup]
    as the string ["0"]. The batch [fetch_token_overview] tests the raw
    value before converting it, a non-empty string is not false, and the
    call returns an overview whose liquidity is the zero [Decimal("0")]
    instead of raising [ValueError(NO_LIQUDITY)]. *)
Lemma batch_overview_with_zero_liquidity :
  BirdEyeClient.fetch_token_overview jup []
  = (Return (mkTokenOverview (DFinite false 1 0) (JInt 0) 0 0
               (DFinite false 0 0) (Int 0)),
     [overview_request jup]) /\
  Py.Decimal_truthy (DFinite false 0 0) = false.
Proof. split; reflexivity. Qed.

Lemma fetch_token_overview_no_liquidity_witness :
  (valid_address usdt = true /\ status_code (answer usdt) = 200 /\
   DexScreenerClient.selected_liquidity (JDict []) = Return None /\
   DexScreenerClient.fetch_token_overview usdt []
   = (Raise (ValueError NO_LIQUDITY), [] ++ [DexScreenerClient.request_for usdt])) /\
  (forall ov log',
     DexScreenerClient.fetch_token_overview usdc [] = (Return ov, log') ->
     Py.Decimal_truthy (liquidity ov) = true) /\
  (is_solana_address bonk = true /\
   status_code (upstream (overview_request bonk)) = 200 /\
   Py.truthy (JInt 0) = false /\
   BirdEyeClient.fetch_token_overview bonk []
   = (Raise (ValueError NO_LIQUDITY), [] ++ [overview_request bonk])) /\
  (forall ov log',
     BirdEyeClient.fetch_token_overview usdc [] = (Return ov, log') ->
     exists raw, is_number raw = true /\ Py.truthy raw = true /\
       Py.to_Decimal raw = Return (liquidity ov) /\
       Py.Decimal_truthy (liquidity ov) = true).
Proof.
  destruct fetch_token_overview_no_liquidity as (Hd1 & Hd2 & Hb1 & Hb2).
  split.
  { do 3 (split; [reflexivity|]).
    apply (Hd1 usdt (JDict [("pairs", JList [pair usdt usdc 100 "1.00"])])
             (JList [pair usdt usdc 100 "1.00"]) (JDict []) []);
      try reflexivity.
    now left. }
  split; [intros ov log' Hrun; exact (Hd2 usdc [] log' ov Hrun)|].
  split.
  { do 3 (split; [reflexivity|]).
    apply (Hb1 bonk
             (JDict [("data", JDict [(bonk, JDict [("value", JFloat (float_of_Z 1));
                                                   ("liquidity", JInt 0)])])])
             (JDict [(bonk, JDict [("value", JFloat (float_of_Z 1));
                                   ("liquidity", JInt 0)])])
             (JDict [("value", JFloat (float_of_Z 1)); ("liquidity", JInt 0)])
             (JInt 0) []); reflexivity. }
  intros ov log' Hrun.
  destruct (Hb2 usdc [] log' ov Hrun)
    as (payload & data & token_data & raw & Hb & Hdata & Htd & Hraw & Ht & Hl & Hnum).
  vm_compute in Hb. injection Hb as <-.
  vm_compute in Hdata. injection Hdata as <-.
  vm_compute in Htd. injection Htd as <-.
  vm_compute in Hraw. injection Hraw as <-.
  exists (JFloat (float_of_Z 52000000)).
  split; [reflexivity|]. split; [exact Ht|]. split; [exact Hl|].
  apply Hnum. reflexivity.
Defined.

End Examples.

(** ** More on the per-token client *)

Section DexRuns.
Context {cfg : Config} {rt : PyRuntime} {net : Network}.
Import DexScreenerClient.

(** A loop that ends normally got through every address. *)
Lemma fetch_prices_loop_returns (addresses : list string) :
  forall (prices : gmap string PriceInfo) (invalid : list string)
    (log log' : list Request) (st : gmap string PriceInfo * list string),
  fetch_prices_loop addresses prices invalid log = (Return st, log') ->
  Forall (fun a => completes a = true) addresses.
Proof.
  induction addresses as [|a rest IH]; intros prices invalid log log' st Hrun.
  - constructor.
  - simpl in Hrun. unfold bind at 1 in Hrun. rewrite _call_api_run in Hrun.
    destruct (String.eqb a "") eqn:Hne; [discriminate|].
    destruct (is_solana_address a) eqn:Hsol; [|discriminate].
    destruct (status_code (answer a) =? 200) eqn:Hs; [|discriminate].
    unfold response_json in Hrun.
    destruct (body (answer a)) as [v|] eqn:Hb; [|discriminate].
    unfold bind at 1, lift at 1 in Hrun.
    destruct (Py.get v "pairs" JNull) as [p|x] eqn:Hp; [|discriminate].
    assert (Hhead : forall ok, (if Py.truthy p
                      then match price_of_pairs v a with
                           | Return _ => true | Raise _ => false end
                      else true) = ok -> completes a = ok).
    { intros ok <-. unfold completes, valid_address.
      now rewrite Hne, Hsol, Hs, Hb, Hp. }
    destruct (Py.truthy p) eqn:Ht.
    + unfold bind at 1, lift at 1 in Hrun.
      destruct (price_of_pairs v a) as [info|x] eqn:Hinfo; [|discriminate].
      constructor; [now apply Hhead|]. eapply IH; eauto.
    + constructor; [now apply Hhead|]. eapply IH; eauto.
Qed.

(** A mapping [fetch_prices_dex] returns, entry by entry. *)
Lemma fetch_prices_dex_returns (addresses : list string)
    (log log' : list Request) (prices : gmap string PriceInfo) :
  fetch_prices_dex addresses log = (Return prices, log') ->
  addresses <> [] /\
  Forall (fun a => completes a = true) addresses /\
  rejected addresses = [] /\
  log' = log ++ map request_for addresses /\
  (forall a, In a addresses ->
     exists v info, body (answer a) = Some v /\
       price_of_pairs v a = Return info /\ prices !! a = Some info) /\
  (forall a, ~ In a addresses -> prices !! a = None).
Proof.
  intros Hrun.
  assert (Hne : addresses <> []) by (intros ->; discriminate).
  rewrite (fetch_prices_dex_nonempty addresses log Hne) in Hrun.
  destruct (fetch_prices_loop addresses ∅ [] log) as [[st|e] log1] eqn:Hloop;
    [|discriminate].
  pose proof (fetch_prices_loop_returns _ _ _ _ _ _ Hloop) as Hall.
  destruct (fetch_prices_loop_completes addresses Hall ∅ [] log)
    as (prices' & Hrun' & Hin & Hout).
  rewrite Hloop in Hrun'. injection Hrun' as -> ->. simpl in Hrun.
  destruct (rejected addresses) eqn:Hrej; [|discriminate].
  injection Hrun as <- <-.
  do 4 (split; [first [assumption|reflexivity]|]).
  assert (Hhas : forall a, In a addresses -> has_pairs a = true).
  { intros a Ha. destruct (has_pairs a) eqn:Hp; [reflexivity|].
    assert (Hr : In a (rejected addresses))
      by (unfold rejected; rewrite filter_In, Hp; now split).
    rewrite Hrej in Hr. destruct Hr. }
  split.
  - intros a Ha. apply Hin; [exact Ha|now apply Hhas].
  - intros a Ha. rewrite Hout by tauto. apply lookup_empty.
Qed.

(** X1. Totality of the per-token [fetch_prices_dex]: a mapping it returns
    has exactly the requested addresses as keys, each priced from the answer
    to its own request, and one request per address has been sent, in input
    order. *)
Theorem fetch_prices_dex_total (addresses : list string)
    (log log' : list Request) (prices : gmap string PriceInfo) :
  fetch_prices_dex addresses log = (Return prices, log') ->
  log' = log ++ map request_for addresses /\
  dom prices = list_to_set addresses /\
  (forall a, In a addresses ->
     exists v info, body (answer a) = Some v /\
       price_of_pairs v a = Return info /\ prices !! a = Some info).
Proof.
  intros Hrun.
  destruct (fetch_prices_dex_returns _ _ _ _ Hrun)
    as (_ & _ & _ & Hlog & Hin & Hout).
  split; [exact Hlog|]. split; [|exact Hin].
  apply set_eq. intros a.
  rewrite elem_of_dom, elem_of_list_to_set, list_elem_of_In. split.
  - intros [info Hinfo].
    destruct (in_dec string_dec a addresses) as [Ha|Ha]; [exact Ha|].
    rewrite (Hout a Ha) in Hinfo. discriminate.
  - intros Ha. destruct (Hin a Ha) as (v & info & _ & _ & Hlook). now exists info.
Qed.

(** Requests go out in input order, one per address, up to the address at
    which the loop stops. *)
Lemma fetch_prices_loop_sent (addresses : list string) :
  forall (prices : gmap string PriceInfo) (invalid : list string)
    (log log' : list Request) (r : result (gmap string PriceInfo * list string)),
  fetch_prices_loop addresses prices invalid log = (r, log') ->
  exists sent rest, addresses = sent ++ rest /\
    log' = log ++ map request_for sent /\
    (forall st, r = Return st -> rest = []).
Proof.
  induction addresses as [|a rest IH]; intros prices invalid log log' r Hrun.
  - injection Hrun as <- <-. exists [], []. simpl.
    now rewrite app_nil_r.
  - assert (Hstop0 : forall e, (Raise e, log) = (r, log') ->
              exists sent rest0, a :: rest = sent ++ rest0 /\
                log' = log ++ map request_for sent /\
                (forall st, r = Return st -> rest0 = [])).
    { intros e H. injection H as <- <-. exists [], (a :: rest). simpl.
      rewrite app_nil_r. repeat split. discriminate. }
    assert (Hstop1 : forall e, (Raise e, log ++ [request_for a]) = (r, log') ->
              exists sent rest0, a :: rest = sent ++ rest0 /\
                log' = log ++ map request_for sent /\
                (forall st, r = Return st -> rest0 = [])).
    { intros e H. injection H as <- <-. exists [a], rest. simpl.
      repeat split. discriminate. }
    assert (Hnext : forall p i,
              fetch_prices_loop rest p i (log ++ [request_for a]) = (r, log') ->
              exists sent rest0, a :: rest = sent ++ rest0 /\
                log' = log ++ map request_for sent /\
                (forall st, r = Return st -> rest0 = [])).
    { intros p i H. destruct (IH _ _ _ _ _ H) as (sent & rest0 & -> & -> & Hret).
      exists (a :: sent), rest0. simpl. rewrite <- app_assoc.
      repeat split. exact Hret. }
    simpl in Hrun. unfold bind at 1 in Hrun. rewrite _call_api_run in Hrun.
    destruct (String.eqb a ""); [eauto|].
    destruct (is_solana_address a); [|eauto].
    destruct (status_code (answer a) =? 200); [|eauto].
    unfold response_json in Hrun.
    destruct (body (answer a)) as [v|]; [|eauto].
    unfold bind at 1, lift at 1 in Hrun.
    destruct (Py.get v "pairs" JNull) as [p|x]; [|eauto].
    destruct (Py.truthy p); [|eauto].
    unfold bind at 1, lift at 1 in Hrun.
    destruct (price_of_pairs v a) as [info|x]; eauto.
Qed.

(** X3. Whatever the outcome, [fetch_prices_dex] has sent its requests in
    input order, one per address, for a prefix of the list: never two for
    one entry, never one for an address after the one at which it stopped;
    and when it returns a mapping, for the whole list. *)
Theorem fetch_prices_dex_requests_in_order (addresses : list string)
    (log log' : list Request) (r : result (gmap string PriceInfo)) :
  fetch_prices_dex addresses log = (r, log') ->
  exists sent rest, addresses = sent ++ rest /\
    log' = log ++ map request_for sent /\
    (forall prices, r = Return prices -> rest = []).
Proof.
  intros Hrun. destruct addresses as [|a l].
  - injection Hrun as <- <-. exists [], []. simpl. rewrite app_nil_r.
    repeat split.
  - rewrite fetch_prices_dex_nonempty in Hrun by discriminate.
    destruct (fetch_prices_loop (a :: l) ∅ [] log) as [r0 log0] eqn:Hloop.
    destruct (fetch_prices_loop_sent _ _ _ _ _ _ Hloop)
      as (sent & rest & Heq & Hlog & Hret).
    destruct r0 as [st|e].
    + specialize (Hret st eq_refl). subst rest.
      exists sent, []. split; [exact Heq|].
      destruct (snd st); injection Hrun as <- <-; split; auto.
    + injection Hrun as <- <-. exists sent, rest.
      split; [exact Heq|]. split; [exact Hlog|]. discriminate.
Qed.

End DexRuns.

Section DexOverview.
Context {cfg : Config} {rt : PyRuntime} {net : Network}.
Import DexScreenerClient.

(** What a returned overview was built from. *)
Lemma fetch_token_overview_returns (a : string) (log log' : list Request)
    (ov : TokenOverview) :
  fetch_token_overview a log = (Return ov, log') ->
  valid_address a = true /\ status_code (answer a) = 200 /\
  log' = log ++ [request_for a] /\
  exists v p, body (answer a) = Some v /\
    Py.get v "pairs" JNull = Return p /\ Py.truthy p = true /\
    overview_of_pairs v a = Return ov.
Proof.
  unfold fetch_token_overview. intros Hrun.
  destruct (is_solana_address a) eqn:Hsol; [|discriminate].
  unfold bind at 1 in Hrun. rewrite _call_api_run, Hsol in Hrun.
  destruct (String.eqb a "") eqn:Hne; [discriminate|].
  destruct (status_code (answer a) =? 200) eqn:Hs; [|discriminate].
  unfold response_json in Hrun.
  destruct (body (answer a)) as [v|] eqn:Hb; [|discriminate].
  unfold bind, lift in Hrun.
  destruct (Py.get v "pairs" JNull) as [p|x] eqn:Hp; [|discriminate].
  destruct (Py.truthy p) eqn:Ht; [|discriminate].
  injection Hrun as Hov <-.
  split; [unfold valid_address; now rewrite Hne, Hsol|].
  split; [now apply Z.eqb_eq|]. split; [reflexivity|].
  exists v, p. auto.
Qed.

(** X5. An overview the per-token client returns is built from one pair of
    the answer, the one the selector returns: when [pairs] is a list, a pair
    of that list with the address as base token and the native asset as
    quote token. Its liquidity is the non-zero Decimal of that pair's
    [liquidity.usd]; price, symbol, decimals, lastTradeUnixTime and supply
    are read from the same pair, with [Decimal(0)], the empty string, [0],
    [0] and [Decimal(0)] for a key the pair does not have. *)
Theorem fetch_token_overview_from_selected_pair (a : string)
    (log log' : list Request) (ov : TokenOverview) :
  fetch_token_overview a log = (Return ov, log') ->
  exists v pairs final_data,
    body (answer a) = Some v /\
    Py.getitem v "pairs" = Return pairs /\
    find_largest_pool_with_sol pairs a = Return final_data /\
    (forall entries, pairs = JList entries ->
       In final_data entries /\ sol_pool a final_data = true) /\
    selected_liquidity final_data = Return (Some (liquidity ov)) /\
    Py.Decimal_truthy (liquidity ov) = true /\
    (exists raw, Py.get final_data "priceUsd" (JInt 0) = Return raw /\
                 Py.to_Decimal raw = Return (price ov)) /\
    Py.get final_data "symbol" (JStr "") = Return (symbol ov) /\
    (exists raw, Py.get final_data "decimals" (JInt 0) = Return raw /\
                 Py.to_int raw = Return (decimals ov)) /\
    (exists raw, Py.get final_data "lastTradeUnixTime" (JInt 0) = Return raw /\
                 Py.to_int raw = Return (lastTradeUnixTime ov)) /\
    (exists raw d, Py.get final_data "supply" (JInt 0) = Return raw /\
                   Py.to_Decimal raw = Return d /\ supply ov = Dec d).
Proof.
  intros Hrun.
  destruct (fetch_token_overview_returns _ _ _ _ Hrun)
    as (_ & _ & _ & v & p & Hb & _ & _ & Hov).
  unfold overview_of_pairs in Hov.
  returned Hov as pairs Hitem. returned Hov as final_data Hfd.
  returned Hov as liq0 Hliq.
  destruct liq0 as [liq|]; [|discriminate].
  destruct (Py.Decimal_truthy liq) eqn:Htruthy; [|discriminate].
  returned Hov as price_raw Hraw. returned Hov as pr Hpr.
  returned Hov as sym Hsym. returned Hov as dec_raw Hdraw.
  returned Hov as dec Hdec. returned Hov as last_raw Hlraw.
  returned Hov as last Hlast. returned Hov as sup_raw Hsraw.
  returned Hov as sup Hsup. injection Hov as <-. simpl.
  exists v, pairs, final_data.
  do 3 (split; [assumption|]). split.
  { intros entries ->. unfold find_largest_pool_with_sol in Hfd. simpl in Hfd.
    destruct (largest_pool_loop_sound _ _ _ _ _ Hfd) as [->|H]; [|exact H].
    discriminate. }
  do 2 (split; [assumption|]).
  split; [eauto|]. split; [assumption|]. split; [eauto|]. split; eauto.
Qed.

(** X6. An overview costs at most one request. The per-token client sends
    its request exactly when [_validate_token_address] accepts the address,
    the batch client exactly when the predicate accepts it; in particular
    the per-token client sends nothing for the empty string, which it
    reports as [InvalidSolanaAddress] when the predicate rejects it and as
    [NoPositionsError] when the predicate accepts it. *)
Theorem overview_sends_at_most_one_request (a : string) (log : list Request) :
  snd (fetch_token_overview a log)
  = (if valid_address a then log ++ [request_for a] else log) /\
  snd (BirdEyeClient.fetch_token_overview a log)
  = (if is_solana_address a then log ++ [overview_request a] else log) /\
  fetch_token_overview "" log
  = (Raise (if is_solana_address "" then NoPositionsError
            else InvalidSolanaAddress ""), log).
Proof.
  split; [|split].
  - unfold fetch_token_overview, valid_address.
    destruct (is_solana_address a) eqn:Hsol;
      [|now rewrite andb_false_r].
    unfold bind at 1. rewrite _call_api_run, Hsol.
    destruct (String.eqb a ""); [reflexivity|]. simpl.
    destruct (status_code (answer a) =? 200); [|reflexivity].
    destruct (response_json (answer a)) as [v|]; [|reflexivity].
    unfold bind, lift. destruct (Py.get v "pairs" JNull) as [p|]; [|reflexivity].
    destruct (Py.truthy p); reflexivity.
  - rewrite fetch_token_overview_run.
    destruct (is_solana_address a); [|reflexivity].
    destruct (status_code _ =? 200); reflexivity.
  - unfold fetch_token_overview.
    destruct (is_solana_address "") eqn:Hsol; [|reflexivity].
    unfold bind. now rewrite _call_api_run.
Qed.

End DexOverview.

(** ** Two calls of the per-token client *)

Section TwoCalls.
Context {cfg : Config} {rt : PyRuntime}.
Variables first later : Network.
Import DexScreenerClient.

Lemma same_answer_completes (a : string) :
  same_answer first later a ->
  completes (net := later) a = completes (net := first) a.
Proof. unfold same_answer, completes. now intros ->. Qed.

Lemma same_answer_has_pairs (a : string) :
  same_answer first later a ->
  has_pairs (net := later) a = has_pairs (net := first) a.
Proof. unfold same_answer, has_pairs. now intros ->. Qed.

Lemma same_answer_rejected (l : list string) :
  (forall a, In a l -> same_answer first later a) ->
  rejected (net := later) l = rejected (net := first) l.
Proof.
  unfold rejected. induction l as [|a l IH]; intros Hans; [reflexivity|].
  simpl. rewrite (same_answer_has_pairs a) by (apply Hans; now left).
  rewrite IH by (intros b Hb; apply Hans; now right). reflexivity.
Qed.

(** X2. The order of the addresses does not matter to the mapping
    [fetch_prices_dex] returns, as long as the upstream answers alike: take
    two calls in each of which no request goes out twice, on lists with the
    same addresses, the second call answered for each address as the first
    was. If the first returns a mapping, the second returns the same
    mapping, after its own requests in its own order. *)
Theorem fetch_prices_dex_same_addresses (l l' : list string)
    (log1 log1' log2 : list Request) (prices : gmap string PriceInfo) :
  List.NoDup (map request_for l) -> List.NoDup (map request_for l') ->
  (forall a, In a l <-> In a l') ->
  (forall a, In a l -> same_answer first later a) ->
  fetch_prices_dex (net := first) l log1 = (Return prices, log1') ->
  fetch_prices_dex (net := later) l' log2
  = (Return prices, log2 ++ map request_for l').
Proof.
  intros _ _ Hsame Hans Hrun.
  destruct (fetch_prices_dex_returns _ _ _ _ Hrun)
    as (Hne & Hall & Hrej & _ & Hin & Hout).
  assert (Hans' : forall a, In a l' -> same_answer first later a)
    by (intros a Ha; apply Hans; now apply Hsame).
  assert (Hne' : l' <> []).
  { destruct l as [|a l0]; [contradiction|]. intros ->.
    now apply (proj1 (Hsame a) (or_introl eq_refl)). }
  assert (Hall' : Forall (fun a => completes (net := later) a = true) l').
  { apply List.Forall_forall. intros a Ha.
    rewrite same_answer_completes by now apply Hans'.
    apply (proj1 (List.Forall_forall _ _) Hall). now apply Hsame. }
  assert (Hrej' : rejected (net := later) l' = []).
  { rewrite same_answer_rejected by exact Hans'.
    destruct (rejected (net := first) l') as [|a r] eqn:Hr; [reflexivity|].
    assert (Ha : In a (rejected (net := first) l')) by (rewrite Hr; now left).
    unfold rejected in Ha. apply filter_In in Ha as [Ha Hp].
    assert (Ha' : In a (rejected (net := first) l)).
    { unfold rejected. apply filter_In. split; [now apply Hsame|exact Hp]. }
    rewrite Hrej in Ha'. destruct Ha'. }
  destruct (fetch_prices_loop_completes (net := later) l' Hall' ∅ [] log2)
    as (prices' & Hrun' & Hin' & Hout').
  rewrite (fetch_prices_dex_nonempty l' log2 Hne'), Hrun', Hrej'. simpl.
  f_equal. f_equal. apply map_eq. intros a.
  destruct (in_dec string_dec a l) as [Ha|Ha].
  - destruct (Hin a Ha) as (v & info & Hb & Hinfo & ->).
    assert (Hhas : has_pairs (net := first) a = true).
    { destruct (has_pairs (net := first) a) eqn:Hp; [reflexivity|].
      assert (Hr : In a (rejected (net := first) l))
        by (unfold rejected; rewrite filter_In, Hp; now split).
      rewrite Hrej in Hr. destruct Hr. }
    rewrite <- (same_answer_has_pairs a (Hans a Ha)) in Hhas.
    destruct (Hin' a (proj1 (Hsame a) Ha) Hhas)
      as (v' & info' & Hb' & Hinfo' & ->).
    rewrite (Hans a Ha) in Hb'. congruence.
  - rewrite (Hout a Ha). rewrite Hout'.
    + apply lookup_empty.
    + intros [Ha' _]. apply Ha. now apply Hsame.
Qed.

(** X4. The two methods of the per-token client agree on one answer: when
    [fetch_token_overview] returns an overview for an address, a call of
    [fetch_prices_dex] on that address alone that the upstream answers as
    it answered the first returns a mapping whose one entry has the price
    and the liquidity of the overview. *)
Theorem overview_agrees_with_prices (a : string)
    (log1 log1' log2 : list Request) (ov : TokenOverview) :
  fetch_token_overview (net := first) a log1 = (Return ov, log1') ->
  same_answer first later a ->
  fetch_prices_dex (net := later) [a] log2
  = (Return {[ a := mkPriceInfo (price ov) (Some (liquidity ov)) ]},
     log2 ++ [request_for a]).
Proof.
  intros Hrun Hans.
  destruct (fetch_token_overview_returns _ _ _ _ Hrun)
    as (Hv & Hs & _ & v & p & Hb & Hp & Ht & Hov).
  rewrite <- Hans in Hs, Hb.
  unfold overview_of_pairs in Hov.
  returned Hov as pairs Hitem. returned Hov as final_data Hfd.
  returned Hov as liq0 Hliq.
  destruct liq0 as [liq|]; [|discriminate].
  destruct (Py.Decimal_truthy liq); [|discriminate].
  returned Hov as price_raw Hraw. returned Hov as pr Hpr.
  returned Hov as sym Hsym. returned Hov as dec_raw Hdraw.
  returned Hov as dec Hdec. returned Hov as last_raw Hlraw.
  returned Hov as last Hlast. returned Hov as sup_raw Hsraw.
  returned Hov as sup Hsup. injection Hov as <-. cbn [price liquidity].
  assert (Hinfo : price_of_pairs v a = Return (mkPriceInfo pr (Some liq))).
  { unfold price_of_pairs. rewrite Hitem. simpl. rewrite Hfd. simpl.
    rewrite Hliq. simpl. rewrite Hraw. simpl. now rewrite Hpr. }
  rewrite fetch_prices_dex_nonempty by discriminate.
  rewrite (fetch_prices_loop_step (net := later) a [] ∅ [] log2 v p Hv Hs Hb Hp),
    Ht, Hinfo.
  simpl. now rewrite insert_empty.
Qed.

End TwoCalls.

(** ** Validation of a list of addresses *)

Section BulkValidation.
Context {cfg : Config} {rt : PyRuntime} {net : Network}.
Import DexScreenerClient.

Lemma _validate_token_address_run (a : string) :
  _validate_token_address a
  = if valid_address a then Return tt
    else Raise (if String.eqb a "" then NoPositionsError
                else InvalidSolanaAddress a).
Proof.
  unfold _validate_token_address, valid_address.
  destruct (String.eqb a ""); [reflexivity|].
  destruct (is_solana_address a); reflexivity.
Qed.

Lemma _validate_token_addresses_loop_ok (l : list string) :
  _validate_token_addresses_loop l = Return tt <->
  Forall (fun a => valid_address a = true) l.
Proof.
  induction l as [|a l IH]; simpl.
  - split; [constructor|reflexivity].
  - rewrite _validate_token_address_run.
    destruct (valid_address a) eqn:Hv; simpl.
    + rewrite IH. split; [now constructor|now inversion 1].
    + split; [discriminate|]. inversion 1. congruence.
Qed.

Lemma _validate_token_addresses_loop_stops (before after : list string)
    (a : string) :
  Forall (fun a' => valid_address a' = true) before ->
  valid_address a = false ->
  _validate_token_addresses_loop (before ++ a :: after)
  = Raise (if String.eqb a "" then NoPositionsError
           else InvalidSolanaAddress a).
Proof.
  intros Hbefore Ha. induction Hbefore as [|b before Hb _ IH]; simpl.
  - now rewrite _validate_token_address_run, Ha.
  - now rewrite _validate_token_address_run, Hb.
Qed.

(** Every list is accepted or has a first address that is not. *)
Lemma first_invalid_address (l : list string) :
  Forall (fun a => valid_address a = true) l \/
  exists before a after, l = before ++ a :: after /\
    Forall (fun a' => valid_address a' = true) before /\
    valid_address a = false.
Proof.
  induction l as [|b l IH]; [left; constructor|].
  destruct (valid_address b) eqn:Hb.
  - destruct IH as [IH|(before & a & after & -> & Hbefore & Ha)].
    + left. now constructor.
    + right. exists (b :: before), a, after. repeat split; auto.
  - right. exists [], b, l. repeat split; auto.
Qed.

(** X7. [_validate_token_addresses] accepts exactly the non-empty lists all
    of whose addresses are non-empty and accepted by the predicate. It
    raises [NoPositionsError] on the empty list; otherwise it reports the
    first address that is not accepted, and that one only:
    [NoPositionsError] if it is the empty string, [InvalidSolanaAddress]
    with the address if not. *)
Theorem _validate_token_addresses_first_failure :
  _validate_token_addresses [] = Raise NoPositionsError /\
  (forall l, _validate_token_addresses l = Return tt <->
     l <> [] /\ Forall (fun a => valid_address a = true) l) /\
  (forall before a after,
     Forall (fun a' => valid_address a' = true) before ->
     valid_address a = false ->
     _validate_token_addresses (before ++ a :: after)
     = Raise (if String.eqb a "" then NoPositionsError
              else InvalidSolanaAddress a)).
Proof.
  split; [reflexivity|]. split.
  - intros [|a l].
    + split; [discriminate|]. now intros [H _].
    + change (_validate_token_addresses (a :: l))
        with (_validate_token_addresses_loop (a :: l)).
      rewrite _validate_token_addresses_loop_ok. split; [|tauto].
      intros H. split; [discriminate|exact H].
  - intros before a after Hbefore Ha.
    rewrite <- (_validate_token_addresses_loop_stops before after a Hbefore Ha).
    now destruct before.
Qed.

(** X8. [_call_api_bulk] validates the whole list before it sends anything:
    on a non-empty list of accepted addresses it sends one request, for the
    addresses joined with commas, and then the status decides; on any other
    list it sends nothing and raises [NoPositionsError] (empty list, or
    first offending address empty) or [InvalidSolanaAddress] with the first
    offending address. *)
Theorem _call_api_bulk_validates_first (l : list string) (log : list Request) :
  (l <> [] -> Forall (fun a => valid_address a = true) l ->
   _call_api_bulk l log
   = (if status_code (upstream (bulk_request l)) =? 200
      then response_json (upstream (bulk_request l))
      else Raise (InvalidTokens None),
      log ++ [bulk_request l])) /\
  (l = [] -> _call_api_bulk l log = (Raise NoPositionsError, log)) /\
  (forall before a after,
     l = before ++ a :: after ->
     Forall (fun a' => valid_address a' = true) before ->
     valid_address a = false ->
     _call_api_bulk l log
     = (Raise (if String.eqb a "" then NoPositionsError
               else InvalidSolanaAddress a), log)).
Proof.
  split; [|split].
  - intros Hne Hall. destruct l as [|a l0]; [contradiction|].
    unfold _call_api_bulk, bind at 1, lift at 1.
    change (_validate_token_addresses (a :: l0))
      with (_validate_token_addresses_loop (a :: l0)).
    rewrite (proj2 (_validate_token_addresses_loop_ok (a :: l0)) Hall).
    unfold bind, send, lift, _validate_response. fold (bulk_request (a :: l0)).
    destruct (status_code (upstream (bulk_request (a :: l0))) =? 200);
      reflexivity.
  - intros ->. reflexivity.
  - intros before a after -> Hbefore Ha.
    assert (Hv : _validate_token_addresses (before ++ a :: after)
                 = Raise (if String.eqb a "" then NoPositionsError
                          else InvalidSolanaAddress a)).
    { rewrite <- (_validate_token_addresses_loop_stops before after a Hbefore Ha).
      now destruct before. }
    unfold _call_api_bulk.
    destruct (before ++ a :: after) eqn:Heq; [now destruct before|].
    unfold bind at 1, lift at 1. now rewrite Hv.
Qed.

End BulkValidation.

(** ** More on the pool selector *)

Section SelectorFilter.
Context {cfg : Config} {rt : PyRuntime}.
Import DexScreenerClient.

Lemma largest_pool_loop_filter (address : string) (pairs : list json) :
  Forall (fun e => readable address e = true) pairs ->
  forall (max_entry : json) (m : float),
  largest_pool_loop pairs address max_entry m
  = largest_pool_loop (List.filter (sol_pool address) pairs) address max_entry m.
Proof.
  induction 1 as [|e rest He _ IH]; intros max_entry m; [reflexivity|].
  destruct (readable_inv _ _ He) as [Hm _].
  destruct (sol_pool address e) eqn:Hs; simpl; rewrite Hs, Hm; simpl.
  - rewrite Hm. simpl.
    destruct (pool_liquidity_usd e) as [f|x]; [|reflexivity]. simpl.
    destruct (float_gt f m); apply IH.
  - apply IH.
Qed.

(** X9. Pairs that fail either condition are excluded, not merely ranked
    lower: on a list it can read, the selector returns what it returns on
    the sub-list of the pairs that have the address as base token and the
    native asset as quote token. *)
Theorem find_largest_pool_with_sol_ignores_other_pairs (address : string)
    (pairs : list json) :
  Forall (fun e => readable address e = true) pairs ->
  find_largest_pool_with_sol (JList pairs) address
  = find_largest_pool_with_sol (JList (List.filter (sol_pool address) pairs))
      address.
Proof.
  intros Hread. unfold find_largest_pool_with_sol. simpl.
  now apply largest_pool_loop_filter.
Qed.

End SelectorFilter.

(** ** More on the batch client *)

Section BirdRuns.
Context {cfg : Config} {rt : PyRuntime} {net : Network}.
Import BirdEyeClient.

(** One turn of the loop on a record it can read. *)
Lemma price_details_loop_step (address : string) (details : json)
    (rest : list (string * json)) (price_details : gmap string PriceInfo)
    (invalid : list string) :
  convertible_record details = true ->
  price_details_loop ((address, details) :: rest) price_details invalid
  = match record_price details with
    | Some info =>
        price_details_loop rest (<[address := info]> price_details) invalid
    | None => price_details_loop rest price_details (invalid ++ [address])
    end /\
  complete_record details
  = match record_price details with Some _ => true | None => false end.
Proof.
  unfold convertible_record, record_price, complete_record. simpl.
  destruct details as [| | | | | |d]; try discriminate.
  unfold Py.contains, Py.getitem.
  destruct (Py.lookup d "value") as [x|]; simpl;
    [|intros _; split; reflexivity].
  destruct (Py.lookup d "liquidity") as [y|]; simpl;
    [|intros _; split; reflexivity].
  destruct (Py.to_Decimal x) as [dx|]; [|discriminate]. simpl.
  destruct (Py.to_Decimal y) as [dy|]; [|discriminate]. simpl.
  intros _. split; reflexivity.
Qed.

Lemma lookup_absent (items : list (string * json)) (k : string) :
  ~ In k (map fst items) -> Py.lookup items k = None.
Proof.
  induction items as [|[k' v] items IH]; simpl; [reflexivity|].
  intros Hnot. destruct (String.eqb_spec k' k) as [->|Hne]; [tauto|].
  apply IH. tauto.
Qed.

(** The loop over records it can read, followed by the rest: the keys of
    the incomplete records are rejected in order, every complete record is
    entered under its key. *)
Lemma price_details_loop_app (before : list (string * json)) :
  Forall (fun kv => convertible_record (snd kv) = true) before ->
  List.NoDup (map fst before) ->
  forall (price_details : gmap string PriceInfo) (invalid : list string),
  exists m,
    (forall rest,
       price_details_loop (before ++ rest) price_details invalid
       = price_details_loop rest m (invalid ++ incomplete_keys before)) /\
    (forall k,
       m !! k = match Py.lookup before k with
                | Some details =>
                    match record_price details with
                    | Some info => Some info
                    | None => price_details !! k
                    end
                | None => price_details !! k
                end).
Proof.
  induction 1 as [|[a details] before Ha _ IH]; intros Hnd price_details invalid.
  - exists price_details. split; [|reflexivity].
    intros rest. unfold incomplete_keys. simpl. now rewrite app_nil_r.
  - cbn [snd] in Ha. cbn [map fst] in Hnd.
    inversion Hnd as [|? ? Hnotin Hnd']; subst.
    pose proof (lookup_absent before a Hnotin) as Habsent.
    destruct (price_details_loop_step a details [] price_details invalid Ha)
      as [_ Hcomplete].
    assert (Hinc : incomplete_keys ((a, details) :: before)
                   = if complete_record details then incomplete_keys before
                     else a :: incomplete_keys before).
    { unfold incomplete_keys. simpl.
      destruct (complete_record details); reflexivity. }
    assert (Hhead : forall k, Py.lookup ((a, details) :: before) k
                    = if String.eqb a k then Some details
                      else Py.lookup before k) by reflexivity.
    rewrite Hinc, Hcomplete.
    destruct (record_price details) as [info|] eqn:Hprice.
    + destruct (IH Hnd' (<[a := info]> price_details) invalid)
        as (m & Hrun & Hlook).
      exists m. split.
      * intros rest. rewrite <- app_comm_cons.
        destruct (price_details_loop_step a details (before ++ rest)
                    price_details invalid Ha) as [-> _].
        rewrite Hprice. apply Hrun.
      * intros k. rewrite Hlook, Hhead.
        destruct (String.eqb_spec a k) as [<-|Hne].
        -- now rewrite Habsent, Hprice, lookup_insert_eq.
        -- rewrite lookup_insert_ne by exact Hne. reflexivity.
    + destruct (IH Hnd' price_details (invalid ++ [a])) as (m & Hrun & Hlook).
      exists m. split.
      * intros rest. rewrite <- app_comm_cons.
        destruct (price_details_loop_step a details (before ++ rest)
                    price_details invalid Ha) as [-> _].
        rewrite Hprice, Hrun, <- app_assoc. reflexivity.
      * intros k. rewrite Hlook, Hhead.
        destruct (String.eqb_spec a k) as [<-|Hne].
        -- now rewrite Habsent, Hprice.
        -- reflexivity.
Qed.

(** X10. All or nothing in the batch [fetch_prices]: when the answer is a
    200 whose [data] is an object of records the loop can read, the call
    raises [InvalidTokens] with the keys of all the records that lack
    [value] or [liquidity], in the order of the answer, even if other
    records are complete; when no record lacks them it returns the mapping
    that has, for each key of [data], the Decimals of its [value] and
    [liquidity]. *)
Theorem fetch_prices_all_or_nothing (addresses : list string)
    (log : list Request) (payload : json) (items : list (string * json)) :
  addresses <> [] ->
  status_code (upstream (prices_request addresses)) = 200 ->
  body (upstream (prices_request addresses)) = Some payload ->
  Py.get payload "data" (JDict []) = Return (JDict items) ->
  List.NoDup (map fst items) ->
  Forall (fun kv => convertible_record (snd kv) = true) items ->
  (incomplete_keys items <> [] ->
   fetch_prices addresses log
   = (Raise (InvalidTokens (Some (incomplete_keys items))),
      log ++ [prices_request addresses])) /\
  (incomplete_keys items = [] ->
   exists prices,
     fetch_prices addresses log
     = (Return prices, log ++ [prices_request addresses]) /\
     forall k, prices !! k = match Py.lookup items k with
                             | Some details => record_price details
                             | None => None
                             end).
Proof.
  intros Hne Hs Hb Hdata Hnd Hall.
  destruct (price_details_loop_app items Hall Hnd ∅ []) as (m & Hrun & Hlook).
  specialize (Hrun []). rewrite app_nil_r in Hrun. simpl in Hrun.
  rewrite (fetch_prices_run addresses log Hne), Hs. simpl.
  unfold response_json. rewrite Hb. simpl. rewrite Hdata. simpl.
  rewrite Hrun. simpl. split.
  - intros Hinc. destruct (incomplete_keys items); [contradiction|reflexivity].
  - intros Hinc. rewrite Hinc. exists m. split; [reflexivity|].
    intros k. rewrite Hlook, lookup_empty.
    destruct (Py.lookup items k) as [details|]; [|reflexivity].
    destruct (record_price details); reflexivity.
Qed.

(** X11. A record that is null, a number or a boolean is not rejected: it
    makes the batch [fetch_prices] raise [TypeError], whatever the records
    after it are, and even if an incomplete record came before it. *)
Theorem fetch_prices_null_record (addresses : list string)
    (log : list Request) (payload details : json)
    (before after : list (string * json)) (a : string) :
  addresses <> [] ->
  status_code (upstream (prices_request addresses)) = 200 ->
  body (upstream (prices_request addresses)) = Some payload ->
  Py.get payload "data" (JDict [])
  = Return (JDict (before ++ (a, details) :: after)) ->
  List.NoDup (map fst before) ->
  Forall (fun kv => convertible_record (snd kv) = true) before ->
  match details with
  | JNull | JBool _ | JInt _ | JFloat _ => True
  | _ => False
  end ->
  fetch_prices addresses log
  = (Raise TypeError, log ++ [prices_request addresses]).
Proof.
  intros Hne Hs Hb Hdata Hnd Hall Hdetails.
  destruct (price_details_loop_app before Hall Hnd ∅ []) as (m & Hrun & _).
  rewrite (fetch_prices_run addresses log Hne), Hs. simpl.
  unfold response_json. rewrite Hb. simpl. rewrite Hdata. simpl.
  rewrite Hrun.
  destruct details; try contradiction; reflexivity.
Qed.

(** X12. Missing data in the batch [fetch_token_overview]: when the 200
    answer has a [data] object with no record for the address, or with an
    empty or null one, the call raises [InvalidTokens] with the address as
    its list, after its one request. *)
Theorem fetch_token_overview_missing_data (a : string) (log : list Request)
    (payload : json) (d : list (string * json)) :
  is_solana_address a = true ->
  status_code (upstream (overview_request a)) = 200 ->
  body (upstream (overview_request a)) = Some payload ->
  Py.getitem payload "data" = Return (JDict d) ->
  Py.lookup d a = None \/ Py.lookup d a = Some (JDict []) \/
  Py.lookup d a = Some JNull ->
  fetch_token_overview a log
  = (Raise (InvalidTokens (Some [a])), log ++ [overview_request a]).
Proof.
  intros Hsol Hs Hb Hdata Hmissing.
  rewrite fetch_token_overview_run, Hsol, Hs. simpl.
  unfold response_json. rewrite Hb. simpl. rewrite Hdata. simpl.
  destruct Hmissing as [-> | [-> | ->]]; reflexivity.
Qed.

End BirdRuns.

(** ** The method dispatch of the batch client *)

Section Dispatch.
Context {cfg : Config} {rt : PyRuntime} {net : Network}.
Import BirdEyeClient.

Lemma upper_ascii_inv (x u : ascii) :
  In u ["G"; "E"; "T"; "P"; "O"; "S"]%char ->
  Py.upper_ascii x = u ->
  x = u \/ x = ascii_of_nat (nat_of_ascii u + 32).
Proof.
  intros Hu Hx. simpl in Hu.
  destruct x as [[] [] [] [] [] [] [] []]; vm_compute in Hx; subst u;
    try (left; reflexivity); try (right; reflexivity);
    exfalso; repeat (destruct Hu as [Hu|Hu]; [discriminate Hu|]); exact Hu.
Qed.

Ltac pick_casing :=
  repeat match goal with
    | H : Py.upper_ascii _ = _ |- _ =>
        apply upper_ascii_inv in H; [destruct H as [-> | ->]|simpl; tauto]
    end;
  vm_compute; tauto.

Lemma upper_get (s : string) : Py.upper s = "GET" <-> In s (casings "get").
Proof.
  split.
  - destruct s as [|c1 [|c2 [|c3 [|c4 s]]]]; simpl; try discriminate.
    intros H. injection H as H1 H2 H3. pick_casing.
  - intros H. vm_compute in H.
    repeat (destruct H as [<-|H]; [reflexivity|]). destruct H.
Qed.

Lemma upper_post (s : string) : Py.upper s = "POST" <-> In s (casings "post").
Proof.
  split.
  - destruct s as [|c1 [|c2 [|c3 [|c4 [|c5 s]]]]]; simpl; try discriminate.
    intros H. injection H as H1 H2 H3 H4. pick_casing.
  - intros H. vm_compute in H.
    repeat (destruct H as [<-|H]; [reflexivity|]). destruct H.
Qed.

(** X13. [_make_api_call] dispatches on the method whatever the case of its
    letters: the eight spellings of GET send one GET request and the
    sixteen spellings of POST one POST request, both with the three headers
    of the client, and return the upstream's response; any other ASCII
    method raises [ValueError] with the method and the URL, and sends
    nothing. *)
Theorem _make_api_call_dispatch (method query_url : string)
    (log : list Request) :
  (In method (casings "get") ->
   _make_api_call method query_url log
   = (Return (upstream (mkRequest GET query_url _headers)),
      log ++ [mkRequest GET query_url _headers])) /\
  (In method (casings "post") ->
   _make_api_call method query_url log
   = (Return (upstream (mkRequest POST query_url _headers)),
      log ++ [mkRequest POST query_url _headers])) /\
  (ascii_only method = true ->
   ~ In method (casings "get") -> ~ In method (casings "post") ->
   _make_api_call method query_url log
   = (Raise (ValueError (UnrecognisedMethod method query_url)), log)).
Proof.
  unfold _make_api_call. split; [|split].
  - intros H. apply upper_get in H. now rewrite H.
  - intros H. apply upper_post in H. now rewrite H.
  - intros _ Hget Hpost.
    destruct (String.eqb_spec (Py.upper method) "GET") as [H|_];
      [apply upper_get in H; contradiction|].
    destruct (String.eqb_spec (Py.upper method) "POST") as [H|_];
      [apply upper_post in H; contradiction|].
    reflexivity.
Qed.

End Dispatch.

(** ** The selector on a list given in two parts *)

Section SelectorAppend.
Context {cfg : Config} {rt : PyRuntime}.
Import DexScreenerClient.

(** The state of the loop after a readable prefix: unchanged, or a
    native-quoted pair of the prefix with its liquidity. *)
Lemma largest_pool_loop_prefix (address : string) (before : list json) :
  Forall (fun e => readable address e = true) before ->
  forall (max_entry : json) (m : float),
  exists max_entry' m',
    (forall rest, largest_pool_loop (before ++ rest) address max_entry m
                  = largest_pool_loop rest address max_entry' m') /\
    ((max_entry' = max_entry /\ m' = m) \/
     (In max_entry' before /\ sol_pool address max_entry' = true /\
      pool_liquidity_usd max_entry' = Return m' /\ float_gt m' m = true)).
Proof.
  induction 1 as [|e before He _ IH]; intros max_entry m.
  - exists max_entry, m. split; [reflexivity|now left].
  - destruct (readable_inv _ _ He) as [Hm Hl].
    destruct (sol_pool address e) eqn:Hs.
    + destruct (Hl eq_refl) as [fe Hfe].
      destruct (float_gt fe m) eqn:Hgt.
      * destruct (IH e fe) as (me' & m' & Hrun & Hstate).
        exists me', m'. split.
        -- intros rest. simpl. rewrite Hm. simpl. rewrite Hfe. simpl.
           rewrite Hgt. apply Hrun.
        -- right. destruct Hstate as [[-> ->]|(Hin & Hs' & Hf' & Hgt')].
           ++ repeat split; auto. now left.
           ++ repeat split; auto; [now right|].
              eapply float_gt_trans; eauto.
      * destruct (IH max_entry m) as (me' & m' & Hrun & Hstate).
        exists me', m'. split.
        -- intros rest. simpl. rewrite Hm. simpl. rewrite Hfe. simpl.
           rewrite Hgt. apply Hrun.
        -- destruct Hstate as [?|(Hin & ? & ? & ?)]; [now left|].
           right. repeat split; auto. now right.
    + destruct (IH max_entry m) as (me' & m' & Hrun & Hstate).
      exists me', m'. split.
      * intros rest. simpl. rewrite Hm. simpl. apply Hrun.
      * destruct Hstate as [?|(Hin & ? & ? & ?)]; [now left|].
        right. repeat split; auto. now right.
Qed.

(** X14. The selector can be run on a list given in two parts: what it
    returns on [before ++ after] is what it returns on [after] alone when it
    selects nothing in [before], and otherwise what it returns on the pair
    it selects in [before] followed by [after]. *)
Theorem find_largest_pool_with_sol_in_two_parts (address : string)
    (before after : list json) (r : json) :
  Forall (fun e => readable address e = true) before ->
  find_largest_pool_with_sol (JList before) address = Return r ->
  (r = JDict [] /\
   find_largest_pool_with_sol (JList (before ++ after)) address
   = find_largest_pool_with_sol (JList after) address) \/
  (r <> JDict [] /\ In r before /\
   find_largest_pool_with_sol (JList (before ++ after)) address
   = find_largest_pool_with_sol (JList (r :: after)) address).
Proof.
  intros Hread. unfold find_largest_pool_with_sol. simpl.
  destruct (largest_pool_loop_prefix address before Hread (JDict []) minus_one)
    as (me' & m' & Hrun & Hstate).
  pose proof (Hrun []) as Hnil. rewrite app_nil_r in Hnil. simpl in Hnil.
  rewrite Hnil. intros Hr. injection Hr as <-.
  destruct Hstate as [[-> ->]|(Hin & Hs & Hf & Hgt)].
  - left. split; [reflexivity|]. apply Hrun.
  - right. split; [intros ->; discriminate Hs|]. split; [exact Hin|].
    rewrite Hrun.
    assert (Hme : readable address me' = true)
      by (exact (proj1 (List.Forall_forall _ _) Hread me' Hin)).
    destruct (readable_inv _ _ Hme) as [Hm _].
    rewrite Hm, Hs. simpl. rewrite Hf. simpl. now rewrite Hgt.
Qed.

End SelectorAppend.

(** ** More runs on the example upstreams *)

Section MoreExamples.
#[local] Existing Instance Fixture.config.
#[local] Existing Instance Fixture.runtime.
Import Fixture Market Gaps DexScreenerClient.
#[local] Existing Instance Market.network.

Lemma fetch_prices_dex_usdc_usdt :
  fetch_prices_dex [usdc; usdt] []
  = (Return usdc_usdt_prices, map request_for [usdc; usdt]).
Proof. vm_compute. reflexivity. Qed.

Lemma fetch_prices_dex_total_witness :
  fetch_prices_dex [usdc; usdt] []
  = (Return usdc_usdt_prices, map request_for [usdc; usdt]) /\
  dom usdc_usdt_prices = list_to_set [usdc; usdt].
Proof.
  split; [exact fetch_prices_dex_usdc_usdt|].
  exact (proj1 (proj2 (fetch_prices_dex_total [usdc; usdt] [] _ usdc_usdt_prices
                         fetch_prices_dex_usdc_usdt))).
Defined.

Lemma fetch_prices_dex_same_addresses_witness :
  List.NoDup (map request_for [usdc; usdt]) /\
  List.NoDup (map request_for [usdt; usdc]) /\
  (forall a, In a [usdc; usdt] -> same_answer Market.network Gaps.network a) /\
  fetch_prices_dex (net := Market.network) [usdc; usdt] []
  = (Return usdc_usdt_prices, map request_for [usdc; usdt]) /\
  fetch_prices_dex (net := Gaps.network) [usdt; usdc] []
  = (Return usdc_usdt_prices, [] ++ map request_for [usdt; usdc]).
Proof.
  assert (Hnd : List.NoDup (map request_for [usdc; usdt])).
  { repeat constructor; simpl; intros H;
      repeat (destruct H as [H|H]; [discriminate H|]); exact H. }
  assert (Hnd' : List.NoDup (map request_for [usdt; usdc])).
  { repeat constructor; simpl; intros H;
      repeat (destruct H as [H|H]; [discriminate H|]); exact H. }
  assert (Hans : forall a, In a [usdc; usdt] ->
                   same_answer Market.network Gaps.network a).
  { intros a [<-|[<-|[]]]; reflexivity. }
  do 3 (split; [assumption|]).
  split; [exact fetch_prices_dex_usdc_usdt|].
  apply (fetch_prices_dex_same_addresses Market.network Gaps.network
           [usdc; usdt] [usdt; usdc] [] (map request_for [usdc; usdt]) []
           usdc_usdt_prices Hnd Hnd');
    [intros a; simpl; tauto|exact Hans|exact fetch_prices_dex_usdc_usdt].
Defined.

Lemma fetch_prices_dex_requests_in_order_witness :
  fetch_prices_dex [bonk; wif; usdc] []
  = (Raise (InvalidTokens None), map request_for [bonk; wif]) /\
  exists sent rest, [bonk; wif; usdc] = sent ++ rest /\
    map request_for [bonk; wif] = [] ++ map request_for sent /\
    (forall prices : gmap string PriceInfo,
       Raise (InvalidTokens None) = Return prices -> rest = []).
Proof.
  split; [vm_compute; reflexivity|].
  apply (fetch_prices_dex_requests_in_order [bonk; wif; usdc] []).
  vm_compute. reflexivity.
Defined.

Lemma fetch_token_overview_usdc :
  fetch_token_overview usdc [] = (Return usdc_dex_overview, [request_for usdc]).
Proof. vm_compute. reflexivity. Qed.

Lemma overview_agrees_with_prices_witness :
  fetch_token_overview (net := Market.network) usdc []
  = (Return usdc_dex_overview, [request_for usdc]) /\
  same_answer Market.network Gaps.network usdc /\
  fetch_prices_dex (net := Gaps.network) [usdc] []
  = (Return {[ usdc := mkPriceInfo (price usdc_dex_overview)
                         (Some (liquidity usdc_dex_overview)) ]},
     [] ++ [request_for usdc]).
Proof.
  split; [exact fetch_token_overview_usdc|]. split; [reflexivity|].
  exact (overview_agrees_with_prices Market.network Gaps.network usdc []
           [request_for usdc] []
           usdc_dex_overview fetch_token_overview_usdc eq_refl).
Defined.

Lemma fetch_token_overview_from_selected_pair_witness :
  fetch_token_overview usdc [] = (Return usdc_dex_overview, [request_for usdc]) /\
  exists v pairs final_data,
    body (answer usdc) = Some v /\
    Py.getitem v "pairs" = Return pairs /\
    find_largest_pool_with_sol pairs usdc = Return final_data /\
    (forall entries, pairs = JList entries ->
       In final_data entries /\ sol_pool usdc final_data = true).
Proof.
  split; [exact fetch_token_overview_usdc|].
  destruct (fetch_token_overview_from_selected_pair usdc [] _ usdc_dex_overview
              fetch_token_overview_usdc)
    as (v & pairs & final_data & Hb & Hitem & Hfd & Hsel & _).
  exists v, pairs, final_data. auto.
Defined.

Lemma find_largest_pool_with_sol_ignores_other_pairs_witness :
  Forall (fun e => readable usdc e = true) three_pairs /\
  find_largest_pool_with_sol (JList three_pairs) usdc
  = find_largest_pool_with_sol
      (JList (List.filter (sol_pool usdc) three_pairs)) usdc.
Proof.
  split; [repeat constructor|].
  apply find_largest_pool_with_sol_ignores_other_pairs. repeat constructor.
Defined.

Lemma find_largest_pool_with_sol_in_two_parts_witness :
  Forall (fun e => readable usdc e = true)
    [pair usdc sol 5 "1.01"; pair usdc usdt 100 "1.00"] /\
  find_largest_pool_with_sol
    (JList [pair usdc sol 5 "1.01"; pair usdc usdt 100 "1.00"]) usdc
  = Return (pair usdc sol 5 "1.01") /\
  ((pair usdc sol 5 "1.01" = JDict [] /\
    find_largest_pool_with_sol
      (JList ([pair usdc sol 5 "1.01"; pair usdc usdt 100 "1.00"]
              ++ [pair usdc sol 9 "1.02"])) usdc
    = find_largest_pool_with_sol (JList [pair usdc sol 9 "1.02"]) usdc) \/
   (pair usdc sol 5 "1.01" <> JDict [] /\
    In (pair usdc sol 5 "1.01")
      [pair usdc sol 5 "1.01"; pair usdc usdt 100 "1.00"] /\
    find_largest_pool_with_sol
      (JList ([pair usdc sol 5 "1.01"; pair usdc usdt 100 "1.00"]
              ++ [pair usdc sol 9 "1.02"])) usdc
    = find_largest_pool_with_sol
        (JList (pair usdc sol 5 "1.01" :: [pair usdc sol 9 "1.02"])) usdc)).
Proof.
  split; [repeat constructor|]. split; [reflexivity|].
  apply find_largest_pool_with_sol_in_two_parts; [repeat constructor|].
  reflexivity.
Defined.

Lemma fetch_prices_keys_witness :
  BirdEyeClient.fetch_prices [usdc; bonk] []
  = (Return {[ usdc := mkPriceInfo (DFinite false 1 0)
                         (Some (DFinite false 52000000 0)) ]},
     [prices_request [usdc; bonk]]) /\
  exists payload data items,
    body (upstream (prices_request [usdc; bonk])) = Some payload /\
    Py.get payload "data" (JDict []) = Return data /\
    Py.items data = Return items /\
    dom ({[ usdc := mkPriceInfo (DFinite false 1 0)
                      (Some (DFinite false 52000000 0)) ]}
         : gmap string PriceInfo)
    = list_to_set (map fst items).
Proof.
  assert (Hrun : BirdEyeClient.fetch_prices [usdc; bonk] []
                 = (Return {[ usdc := mkPriceInfo (DFinite false 1 0)
                                        (Some (DFinite false 52000000 0)) ]},
                    [prices_request [usdc; bonk]]))
    by (vm_compute; reflexivity).
  split; [exact Hrun|].
  exact (fetch_prices_keys [usdc; bonk] [] _ _ Hrun).
Defined.

End MoreExamples.

Section GapExamples.
#[local] Existing Instance Fixture.config.
#[local] Existing Instance Fixture.runtime.
Import Fixture Market Gaps DexScreenerClient.
#[local] Existing Instance Gaps.network.

Lemma fetch_prices_all_or_nothing_witness :
  [usdc; bonk; jup] <> [] /\
  status_code (upstream (prices_request [usdc; bonk; jup])) = 200 /\
  body (upstream (prices_request [usdc; bonk; jup]))
  = Some (JDict [("data", JDict gap_items)]) /\
  List.NoDup (map fst gap_items) /\
  Forall (fun kv => convertible_record (snd kv) = true) gap_items /\
  incomplete_keys gap_items = [bonk; jup] /\
  BirdEyeClient.fetch_prices [usdc; bonk; jup] []
  = (Raise (InvalidTokens (Some (incomplete_keys gap_items))),
     [] ++ [prices_request [usdc; bonk; jup]]).
Proof.
  assert (Hnd : List.NoDup (map fst gap_items)).
  { repeat constructor; simpl; intros H;
      repeat (destruct H as [H|H]; [discriminate H|]); exact H. }
  split; [discriminate|]. do 2 (split; [reflexivity|]).
  split; [exact Hnd|]. split; [repeat constructor|]. split; [reflexivity|].
  apply (proj1 (fetch_prices_all_or_nothing [usdc; bonk; jup] []
                  (JDict [("data", JDict gap_items)]) gap_items
                  ltac:(discriminate) eq_refl eq_refl eq_refl Hnd
                  ltac:(repeat constructor))).
  discriminate.
Defined.

Lemma fetch_prices_null_record_witness :
  [usdc; wif] <> [] /\
  status_code (upstream (prices_request [usdc; wif])) = 200 /\
  body (upstream (prices_request [usdc; wif]))
  = Some (JDict [("data", JDict ([(usdc, quote 1 52000000)]
                                 ++ (wif, JNull) :: []))]) /\
  List.NoDup (map fst [(usdc, quote 1 52000000)]) /\
  Forall (fun kv => convertible_record (snd kv) = true)
    [(usdc, quote 1 52000000)] /\
  BirdEyeClient.fetch_prices [usdc; wif] []
  = (Raise TypeError, [] ++ [prices_request [usdc; wif]]).
Proof.
  assert (Hnd : List.NoDup (map fst [(usdc, quote 1 52000000)]))
    by (repeat constructor; intros []).
  split; [discriminate|]. do 2 (split; [reflexivity|]).
  split; [exact Hnd|]. split; [repeat constructor|].
  exact (fetch_prices_null_record [usdc; wif] []
           (JDict [("data", JDict ([(usdc, quote 1 52000000)]
                                   ++ (wif, JNull) :: []))])
           JNull [(usdc, quote 1 52000000)] [] wif
           ltac:(discriminate) eq_refl eq_refl eq_refl Hnd
           ltac:(repeat constructor) I).
Defined.

Lemma fetch_token_overview_missing_data_witness :
  is_solana_address usdt = true /\
  status_code (upstream (overview_request usdt)) = 200 /\
  body (upstream (overview_request usdt)) = Some (JDict [("data", JDict [])]) /\
  Py.lookup [] usdt = None /\
  BirdEyeClient.fetch_token_overview usdt []
  = (Raise (InvalidTokens (Some [usdt])), [] ++ [overview_request usdt]).
Proof.
  do 4 (split; [reflexivity|]).
  exact (fetch_token_overview_missing_data usdt []
           (JDict [("data", JDict [])]) [] eq_refl eq_refl eq_refl eq_refl
           (or_introl eq_refl)).
Defined.

Lemma _validate_token_addresses_first_failure_witness :
  _validate_token_addresses [usdc; usdt] = Return tt /\
  _validate_token_addresses ([usdc] ++ "bad" :: [""; usdt])
  = Raise (InvalidSolanaAddress "bad") /\
  _validate_token_addresses ([usdc] ++ "" :: ["bad"]) = Raise NoPositionsError.
Proof.
  destruct _validate_token_addresses_first_failure as (_ & Hiff & Hfirst).
  split; [|split].
  - apply Hiff. split; [discriminate|repeat constructor].
  - exact (Hfirst [usdc] "bad" [""; usdt] ltac:(repeat constructor) eq_refl).
  - exact (Hfirst [usdc] "" ["bad"] ltac:(repeat constructor) eq_refl).
Defined.

Lemma _call_api_bulk_validates_first_witness :
  _call_api_bulk [usdc; usdt] []
  = (Return both_pairs, [] ++ [bulk_request [usdc; usdt]]) /\
  _call_api_bulk ([usdc] ++ "bad" :: [usdt]) []
  = (Raise (InvalidSolanaAddress "bad"), []).
Proof.
  split.
  - exact (proj1 (_call_api_bulk_validates_first [usdc; usdt] [])
             ltac:(discriminate) ltac:(repeat constructor)).
  - exact (proj2 (proj2 (_call_api_bulk_validates_first
                           ([usdc] ++ "bad" :: [usdt]) []))
             [usdc] "bad" [usdt] eq_refl ltac:(repeat constructor) eq_refl).
Defined.

Lemma _make_api_call_dispatch_witness :
  BirdEyeClient._make_api_call "Get" "u" []
  = (Return (upstream (mkRequest GET "u" BirdEyeClient._headers)),
     [] ++ [mkRequest GET "u" BirdEyeClient._headers]) /\
  BirdEyeClient._make_api_call "pOST" "u" []
  = (Return (upstream (mkRequest POST "u" BirdEyeClient._headers)),
     [] ++ [mkRequest POST "u" BirdEyeClient._headers]) /\
  BirdEyeClient._make_api_call "PUT" "u" []
  = (Raise (ValueError (UnrecognisedMethod "PUT" "u")), []).
Proof.
  split; [|split].
  - apply (proj1 (_make_api_call_dispatch "Get" "u" [])).
    vm_compute. tauto.
  - apply (proj1 (proj2 (_make_api_call_dispatch "pOST" "u" []))).
    vm_compute. tauto.
  - apply (proj2 (proj2 (_make_api_call_dispatch "PUT" "u" [])));
      [reflexivity| |]; vm_compute; intros H;
      repeat (destruct H as [H|H]; [discriminate H|]); exact H.
Defined.

End GapExamples.
